(** * A shallow embedding of [main.py], the static site generator of
    rhaeguard/unfunction.

    Python strings are modelled as [string]: sequences of characters whose
    code points are below 256 (Latin-1), so that the Python notions of
    whitespace ([str.isspace]) and of line boundaries ([str.splitlines])
    can be written out for every character the model can hold.
    Exceptions raised by the script are values of [exn]; a computation that
    may raise returns a [result]. *)

From Stdlib Require Import Strings.String Strings.Ascii Lists.List Bool Arith Lia ZArith.
From Stdlib Require Import Numbers.DecimalString.
Import ListNotations.
Open Scope string_scope.

(** ** Exceptions and the error monad *)

Inductive exn :=
| KeyError (key : string)        (** [dict.__getitem__] on a missing key *)
| ValueError                     (** failed unpacking, [int()], [strptime] *)
| ClassNotFound (name : string)  (** [get_lexer_by_name] on an unknown alias *)
| OSError.                       (** [Image.open] on a file it cannot read *)

Inductive result (A : Type) :=
| Ok (a : A)
| Raise (e : exn).
Arguments Ok {A} a.
Arguments Raise {A} e.

Definition bind {A B} (m : result A) (k : A -> result B) : result B :=
  match m with Ok a => k a | Raise e => Raise e end.

Notation "x <- m ;; k" := (bind m (fun x => k))
  (at level 61, m at next level, right associativity).

Definition fmap {A B} (f : A -> B) (m : result A) : result B :=
  match m with Ok a => Ok (f a) | Raise e => Raise e end.

(** ** Characters *)

(** [str.isspace] on code points below 256: \t \n \v \f \r, \x1c-\x1f,
    space, \x85 and \xa0. *)
Definition is_space (c : ascii) : bool :=
  let n := nat_of_ascii c in
  (((9 <=? n) && (n <=? 13)) || ((28 <=? n) && (n <=? 32))
   || (n =? 133) || (n =? 160))%nat.

(** Line boundaries of [str.splitlines] below 256: \n \v \f \r, \x1c,
    \x1d, \x1e and \x85. *)
Definition is_line_break (c : ascii) : bool :=
  let n := nat_of_ascii c in
  (((10 <=? n) && (n <=? 13)) || ((28 <=? n) && (n <=? 30)) || (n =? 133))%nat.

Definition is_lower (c : ascii) : bool :=
  let n := nat_of_ascii c in ((97 <=? n) && (n <=? 122))%nat.

Definition is_digit (c : ascii) : bool :=
  let n := nat_of_ascii c in ((48 <=? n) && (n <=? 57))%nat.

(** [[a-zA-Z0-9_]] *)
Definition is_word (c : ascii) : bool :=
  let n := nat_of_ascii c in
  (is_lower c || ((65 <=? n) && (n <=? 90)) || is_digit c || (n =? 95))%nat.

(** ** Python string operations *)

(** [s.startswith(p)] *)
Fixpoint startswith (p s : string) : bool :=
  match p, s with
  | EmptyString, _ => true
  | String a p', String b s' => Ascii.eqb a b && startswith p' s'
  | String _ _, EmptyString => false
  end.

(** [s.find(sub)], with [None] for the [-1] of a failed search. *)
Fixpoint find (sub s : string) : option nat :=
  if startswith sub s then Some 0
  else match s with
       | EmptyString => None
       | String _ s' => option_map S (find sub s')
       end.

Definition py_find (sub s : string) : Z :=
  match find sub s with Some n => Z.of_nat n | None => (-1)%Z end.

(** Index normalisation of Python slicing: negative indices count from the
    end, and both are clamped to [0, len]. *)
Definition norm_index (i : Z) (n : nat) : nat :=
  let n := Z.of_nat n in
  Z.to_nat (if (i <? 0)%Z then Z.max 0 (n + i) else Z.min i n).

(** [s[i:j]], [s[:j]] and [s[i:]] *)
Definition slice (s : string) (i j : Z) : string :=
  let a := norm_index i (String.length s) in
  let b := norm_index j (String.length s) in
  substring a (b - a) s.

Definition slice_to (s : string) (j : Z) : string := slice s 0 j.

Definition slice_from (s : string) (i : Z) : string :=
  slice s i (Z.of_nat (String.length s)).

(** [s.replace(old, new)] for a non-empty [old]: matches are taken left to
    right and do not overlap; [skip] counts the characters of a match still
    to be consumed. *)
Fixpoint replace_go (old new : string) (skip : nat) (s : string) : string :=
  match s with
  | EmptyString => EmptyString
  | String c s' =>
      match skip with
      | S k => replace_go old new k s'
      | O =>
          if startswith old s then new ++ replace_go old new (String.length old - 1) s'
          else String c (replace_go old new 0 s')
      end
  end.

Definition replace (s old new : string) : string := replace_go old new 0 s.

(** [s.lstrip()], [s.rstrip()] and [s.strip()] *)
Fixpoint lstrip (s : string) : string :=
  match s with
  | EmptyString => EmptyString
  | String c s' => if is_space c then lstrip s' else s
  end.

Fixpoint rstrip (s : string) : string :=
  match s with
  | EmptyString => EmptyString
  | String c s' =>
      let r := rstrip s' in
      match r with
      | EmptyString => if is_space c then EmptyString else String c EmptyString
      | _ => String c r
      end
  end.

Definition strip (s : string) : string := rstrip (lstrip s).

(** [s.splitlines()]: the segments between line boundaries ("\r\n" counts
    as one), where a trailing empty segment is dropped. *)
Fixpoint split_segments (after_cr : bool) (s : string) : list string :=
  match s with
  | EmptyString => [EmptyString]
  | String c s' =>
      if after_cr && Ascii.eqb c "010"%char then split_segments false s'
      else if is_line_break c then EmptyString :: split_segments (Ascii.eqb c "013"%char) s'
      else match split_segments false s' with
           | l :: ls => String c l :: ls
           | [] => [String c EmptyString]
           end
  end.

Definition drop_trailing_empty (l : list string) : list string :=
  match rev l with
  | EmptyString :: r => rev r
  | _ => l
  end.

Definition splitlines (s : string) : list string :=
  drop_trailing_empty (split_segments false s).

(** [s.split(sep, maxsplit=1)] unpacked into two names: a string without
    [sep] gives a one-element list, whose unpacking raises. *)
Fixpoint split_once (sep : ascii) (s : string) : option (string * string) :=
  match s with
  | EmptyString => None
  | String c s' =>
      if Ascii.eqb c sep then Some (EmptyString, s')
      else match split_once sep s' with
           | Some (a, b) => Some (String c a, b)
           | None => None
           end
  end.

(** ** Python dicts: insertion-ordered association lists *)

Definition dict := list (string * string).

Fixpoint dict_get (k : string) (d : dict) : option string :=
  match d with
  | [] => None
  | (k', v) :: d' => if String.eqb k k' then Some v else dict_get k d'
  end.

(** [d[k] = v]: an existing key keeps its place, a new one goes last. *)
Fixpoint dict_set (k v : string) (d : dict) : dict :=
  match d with
  | [] => [(k, v)]
  | (k', v') :: d' => if String.eqb k k' then (k, v) :: d' else (k', v') :: dict_set k v d'
  end.

Definition dict_mem (k : string) (d : dict) : bool :=
  match dict_get k d with Some _ => true | None => false end.

(** [d[k]] *)
Definition dict_getitem (d : dict) (k : string) : result string :=
  match dict_get k d with Some v => Ok v | None => Raise (KeyError k) end.

Fixpoint drop_n (n : nat) (s : string) : string :=
  match n, s with
  | O, _ => s
  | S n', String _ s' => drop_n n' s'
  | S _, EmptyString => EmptyString
  end.

Fixpoint take_while (p : ascii -> bool) (s : string) : string :=
  match s with
  | String c s' => if p c then String c (take_while p s') else EmptyString
  | EmptyString => EmptyString
  end.

(** The double quote character. *)
Definition dq : string := String "034"%char EmptyString.

(** ** Regular expressions of the script

    [re.sub(pattern, repl, s)] scans [s] left to right; where the pattern
    matches, the match is replaced and scanning resumes after it, otherwise
    the character is kept.  A matcher returns the length of the match found
    at the head of its argument and the replacement.  None of the patterns
    of the script matches the empty string. *)

Fixpoint re_sub_go (matcher : string -> option (nat * string)) (skip : nat) (s : string)
  : string :=
  match s with
  | EmptyString => EmptyString
  | String c s' =>
      match skip with
      | S k => re_sub_go matcher k s'
      | O =>
          match matcher s with
          | Some (n, repl) => repl ++ re_sub_go matcher (n - 1) s'
          | None => String c (re_sub_go matcher 0 s')
          end
      end
  end.

Definition re_sub (matcher : string -> option (nat * string)) (s : string) : string :=
  re_sub_go matcher 0 s.

(** The same scan with a replacement function that may raise: the
    replacement of a match is computed before scanning goes on, so the
    first failing match raises. *)
Fixpoint re_sub_call_go (matcher : string -> option (nat * result string)) (skip : nat)
  (s : string) : result string :=
  match s with
  | EmptyString => Ok EmptyString
  | String c s' =>
      match skip with
      | S k => re_sub_call_go matcher k s'
      | O =>
          match matcher s with
          | Some (n, repl) =>
              r <- repl ;;
              rest <- re_sub_call_go matcher (n - 1) s' ;;
              Ok (r ++ rest)
          | None =>
              rest <- re_sub_call_go matcher 0 s' ;;
              Ok (String c rest)
          end
      end
  end.

Definition re_sub_call (matcher : string -> option (nat * result string)) (s : string)
  : result string :=
  re_sub_call_go matcher 0 s.

(** [((.|\n)+?)close]: the shortest non-empty [inner] with
    [s = inner ++ close ++ rest]; [(.|\n)] matches every character. *)
Fixpoint lazy_until (close : string) (s : string) : option (string * string) :=
  match s with
  | EmptyString => None
  | String c s' =>
      if startswith close s' then Some (String c EmptyString, drop_n (String.length close) s')
      else match lazy_until close s' with
           | Some (inner, rest) => Some (String c inner, rest)
           | None => None
           end
  end.

(** [CODE_EXTRACTION_REGEX]:
    [<pre><code class="language-([a-z]+)">((.|\n)+?)<\/code><\/pre>].
    [[a-z]+] is followed by a quote, which it cannot match, so only its
    longest run can succeed. *)
Definition code_open : string := "<pre><code class=" ++ dq ++ "language-".
Definition code_lang_end : string := dq ++ ">".
Definition code_close : string := "</code></pre>".

Definition match_code_block (s : string) : option (string * string * nat) :=
  if startswith code_open s then
    let r1 := drop_n (String.length code_open) s in
    let lang := take_while is_lower r1 in
    let r2 := drop_n (String.length lang) r1 in
    if (0 <? String.length lang)%nat && startswith code_lang_end r2 then
      match lazy_until code_close (drop_n (String.length code_lang_end) r2) with
      | Some (code, _) =>
          Some (lang, code,
                String.length code_open + String.length lang + String.length code_lang_end
                + String.length code + String.length code_close)%nat
      | None => None
      end
    else None
  else None.

(** [re.findall(r"{{exists:([a-zA-Z0-9_]+)}}", page)]; as above, only the
    longest run of word characters can be followed by ["}}"]. *)
Definition match_exists_marker (s : string) : option (string * nat) :=
  if startswith "{{exists:" s then
    let name := take_while is_word (drop_n 9 s) in
    if (0 <? String.length name)%nat && startswith "}}" (drop_n (9 + String.length name) s)
    then Some (name, 11 + String.length name)%nat
    else None
  else None.

Fixpoint findall_exists_go (skip : nat) (s : string) : list string :=
  match s with
  | EmptyString => []
  | String _ s' =>
      match skip with
      | S k => findall_exists_go k s'
      | O =>
          match match_exists_marker s with
          | Some (name, n) => name :: findall_exists_go (n - 1) s'
          | None => findall_exists_go 0 s'
          end
      end
  end.

(** Lines 33-35: [conditional_variables], from the three templates. *)
Definition scan_conditional_variables (pages : list string) : list string :=
  flat_map (findall_exists_go 0) pages.

(** The regex of line 115 for one conditional variable:
    [{{exists:cvar}}((.|\n)+?){{exists:cvar:end}}]. *)
Definition exists_open (cvar : string) : string := "{{exists:" ++ cvar ++ "}}".
Definition exists_close (cvar : string) : string := "{{exists:" ++ cvar ++ ":end}}".

(** [conditional_render(variable_exists)] (lines 73-78) as the replacement
    of that regex. *)
Definition match_conditional (cvar : string) (variable_exists : bool) (s : string)
  : option (nat * string) :=
  if startswith (exists_open cvar) s then
    match lazy_until (exists_close cvar) (drop_n (String.length (exists_open cvar)) s) with
    | Some (inner, _) =>
        Some (String.length (exists_open cvar) + String.length inner
              + String.length (exists_close cvar),
              if variable_exists then inner else EmptyString)%nat
    | None => None
    end
  else None.

(** Line 116. *)
Definition conditional_sub (cvar : string) (variable_exists : bool) (out_html : string) : string :=
  re_sub (match_conditional cvar variable_exists) out_html.

(** [hilite_code] decodes in this order (lines 46-49). *)
Definition decode_entities (code : string) : string :=
  let code := replace code "&amp;" "&" in
  let code := replace code "&lt;" "<" in
  let code := replace code "&gt;" ">" in
  replace code "&quot;" dq.

(** The escaping done by the fenced-code extension of Python-Markdown on a
    code block ([_escape]), which [decode_entities] is meant to undo. *)
Definition markdown_escape (code : string) : string :=
  let code := replace code "&" "&amp;" in
  let code := replace code "<" "&lt;" in
  let code := replace code ">" "&gt;" in
  replace code dq "&quot;".

(** ** The metadata block (lines 91-105) *)

(** Line 99-100: [key, value = meta.strip().split("=", maxsplit=1)] and
    [key.strip(), value.strip()]. *)
Definition parse_meta_line (meta : string) : result (string * string) :=
  match split_once "="%char (strip meta) with
  | Some (key, value) => Ok (strip key, strip value)
  | None => Raise ValueError
  end.

(** Lines 95-101: the loop over [metadata.splitlines()]. *)
Fixpoint parse_meta_lines (post_metadata : dict) (lines : list string) : result dict :=
  match lines with
  | [] => Ok post_metadata
  | meta :: lines' =>
      if String.eqb (strip meta) EmptyString then parse_meta_lines post_metadata lines'
      else
        kv <- parse_meta_line meta ;;
        parse_meta_lines (dict_set (fst kv) (snd kv) post_metadata) lines'
  end.

Definition parse_metadata (post_metadata : dict) (metadata : string) : result dict :=
  parse_meta_lines post_metadata (splitlines metadata).

Record extracted := {
  ex_metadata : dict;   (** [post_metadata] *)
  ex_appended : bool;   (** whether it was appended to [posts_metadata] *)
  ex_body : string      (** [out_html] after the comment is cut off *)
}.

(** Lines 91-105. *)
Definition extract_metadata (filename out_html : string) : result extracted :=
  let post_metadata := [("filename", filename)] in
  match find "-->" out_html with
  | None => Ok {| ex_metadata := post_metadata; ex_appended := false; ex_body := out_html |}
  | Some ix =>
      let metadata := slice out_html 4 (Z.of_nat ix) in
      pm <- parse_metadata post_metadata metadata ;;
      Ok {| ex_metadata := pm; ex_appended := true;
            ex_body := slice_from out_html (Z.of_nat ix + 3) |}
  end.

(** ** Template substitution (lines 106-116) *)

(** Lines 110-111: the value put in for [{{date}}] is [value[:value.find("T")]]. *)
Definition meta_value (key value : string) : string :=
  if String.eqb key "date" then slice_to value (py_find "T" value) else value.

(** Lines 109-112. *)
Fixpoint substitute_metadata (items : dict) (out_html : string) : string :=
  match items with
  | [] => out_html
  | (key, value) :: items' =>
      substitute_metadata items'
        (replace out_html ("{{" ++ key ++ "}}") (meta_value key value))
  end.

(** Lines 114-116. *)
Fixpoint render_conditionals (cvars : list string) (post_metadata : dict) (out_html : string)
  : string :=
  match cvars with
  | [] => out_html
  | cvar :: cvars' =>
      render_conditionals cvars' post_metadata
        (conditional_sub cvar (dict_mem cvar post_metadata) out_html)
  end.

(** Lines 106-116. *)
Definition render_page (single_post_template html_template : string) (cvars : list string)
  (post_metadata : dict) (body : string) : string :=
  let out_html := replace single_post_template "{{CONTENT}}" body in
  let out_html := replace html_template "{{CONTENT}}" out_html in
  let out_html := substitute_metadata post_metadata out_html in
  render_conditionals cvars post_metadata out_html.

Record post_result := {
  pr_page : string;      (** what is written to [./build/posts/<filename>/index.html] *)
  pr_metadata : dict;    (** [post_metadata] *)
  pr_appended : bool     (** whether [post_metadata] joined [posts_metadata] *)
}.

Section Build.

(** The libraries the script calls: pygments' lexer table and its
    [highlight] with the monokai [HtmlFormatter], and Python-Markdown's
    [convert] with the [fenced_code] and [sane_lists] extensions. *)
Variable Lexer : Type.
Variable get_lexer_by_name : string -> option Lexer.
Variable highlight : string -> Lexer -> string.
Variable markdown_convert : string -> string.

(** Lines 42-52. *)
Definition hilite_code (lang code : string) : result string :=
  let code := decode_entities code in
  match get_lexer_by_name lang with
  | Some lexer => Ok (highlight code lexer)
  | None => Raise (ClassNotFound lang)
  end.

(** Line 89. *)
Definition highlight_code_blocks (out_html : string) : result string :=
  re_sub_call
    (fun s => match match_code_block s with
              | Some (lang, code, n) => Some (n, hilite_code lang code)
              | None => None
              end)
    out_html.

(** Lines 87-116: the body of the loop over the posts. *)
Definition process_post (single_post_template html_template : string) (cvars : list string)
  (filename source : string) : result post_result :=
  let out_html := markdown_convert source in
  out_html <- highlight_code_blocks out_html ;;
  ex <- extract_metadata filename out_html ;;
  Ok {| pr_page := render_page single_post_template html_template cvars
                     (ex_metadata ex) (ex_body ex);
        pr_metadata := ex_metadata ex;
        pr_appended := ex_appended ex |}.

(** The order the spec describes: the comment is cut off before the code
    blocks are highlighted. *)
Definition process_post_spec_order (single_post_template html_template : string)
  (cvars : list string) (filename source : string) : result post_result :=
  let out_html := markdown_convert source in
  ex <- extract_metadata filename out_html ;;
  body <- highlight_code_blocks (ex_body ex) ;;
  Ok {| pr_page := render_page single_post_template html_template cvars
                     (ex_metadata ex) body;
        pr_metadata := ex_metadata ex;
        pr_appended := ex_appended ex |}.

(** Lines 81-119: [files] are the names and contents found by
    [glob.glob("./content/posts/*.md")], in its order; the result lists the
    pages written and the final [posts_metadata]. *)
Fixpoint build_post_pages (single_post_template html_template : string) (cvars : list string)
  (files : list (string * string)) (posts_metadata : list dict)
  : result (list (string * string) * list dict) :=
  match files with
  | [] => Ok ([], posts_metadata)
  | (name, source) :: files' =>
      let filename := slice_to name (-3) in
      r <- process_post single_post_template html_template cvars filename source ;;
      let posts_metadata' :=
        if pr_appended r then app posts_metadata [pr_metadata r] else posts_metadata in
      rest <- build_post_pages single_post_template html_template cvars files' posts_metadata' ;;
      Ok (("./build/posts/" ++ filename ++ "/index.html", pr_page r) :: fst rest, snd rest)
  end.

End Build.

(** ** [datetime.strptime(date, "%Y-%m-%dT%H:%M:%S%z").date()]

    [_strptime] compiles the format to a regular expression with
    [re.IGNORECASE], takes the first match that [re.match] finds at the
    start of the string, and raises [ValueError] when there is none or when
    characters remain after it.  Each directive is a list of alternatives,
    tried in order; an alternative is a fixed sequence of character
    classes.  The matches of a format are listed in backtracking order. *)

Definition alternative := list (ascii -> bool).

Definition ch (c : ascii) : ascii -> bool := fun c' => Ascii.eqb c c'.
Definition rng (lo hi : ascii) : ascii -> bool :=
  fun c => ((nat_of_ascii lo <=? nat_of_ascii c) && (nat_of_ascii c <=? nat_of_ascii hi))%nat.

Fixpoint match_alternative (a : alternative) (s : string) : option (string * string) :=
  match a, s with
  | [], _ => Some (EmptyString, s)
  | p :: a', String c s' =>
      if p c then
        match match_alternative a' s' with
        | Some (tok, rest) => Some (String c tok, rest)
        | None => None
        end
      else None
  | _ :: _, EmptyString => None
  end.

Definition match_directive (alts : list alternative) (s : string) : list (string * string) :=
  flat_map (fun a => match match_alternative a s with Some r => [r] | None => [] end) alts.

Fixpoint match_format (ds : list (list alternative)) (s : string)
  : list (list string * string) :=
  match ds with
  | [] => [([], s)]
  | d :: ds' =>
      flat_map (fun '(tok, rest) =>
                  map (fun '(toks, r) => (tok :: toks, r)) (match_format ds' rest))
               (match_directive d s)
  end.

(** The regular expressions of [_strptime.TimeRE] for the directives used. *)
Definition re_Y : list alternative := [[is_digit; is_digit; is_digit; is_digit]].
Definition re_m : list alternative :=
  [[ch "1"; rng "0" "2"]; [ch "0"; rng "1" "9"]; [rng "1" "9"]].
Definition re_d : list alternative :=
  [[ch "3"; rng "0" "1"]; [rng "1" "2"; is_digit]; [ch "0"; rng "1" "9"];
   [rng "1" "9"]; [ch " "; rng "1" "9"]].
Definition re_H : list alternative := [[ch "2"; rng "0" "3"]; [rng "0" "1"; is_digit]; [is_digit]].
Definition re_M : list alternative := [[rng "0" "5"; is_digit]; [is_digit]].
Definition re_S : list alternative := [[ch "6"; rng "0" "1"]; [rng "0" "5"; is_digit]; [is_digit]].

(** [[+-]\d\d:?[0-5]\d(:?[0-5]\d(\.\d{1,6})?)?|(?-i:Z)], expanded with the
    greedy choices first. *)
Definition re_z : list alternative :=
  let colon (b : bool) : alternative := if b then [ch ":"] else [] in
  let frac (k : nat) : alternative :=
    match k with O => [] | _ => ch "." :: repeat is_digit k end in
  let tails : list alternative := app (
    flat_map (fun c2 => map (fun k => (colon c2 ++ [rng "0" "5"; is_digit] ++ frac k)%list)
                            [6; 5; 4; 3; 2; 1; 0]%nat)
             [true; false]) [[]] in
  app (flat_map (fun c1 => map (fun t => ([fun c => orb (ch "+" c) (ch "-" c); is_digit; is_digit]
                                       ++ colon c1 ++ [rng "0" "5"; is_digit] ++ t)%list)
                          tails)
           [true; false])
  [[ch "Z"]].

(** The literal [T] of the format, matched ignoring case. *)
Definition re_format : list (list alternative) :=
  [re_Y; [[ch "-"]]; re_m; [[ch "-"]]; re_d; [[fun c => orb (ch "T" c) (ch "t" c)]];
   re_H; [[ch ":"]]; re_M; [[ch ":"]]; re_S; re_z].

(** [int(s)] of a field: the fields are digits, [%d] may start with a space. *)
Fixpoint digits_value_go (s : string) (acc : nat) : nat :=
  match s with
  | EmptyString => acc
  | String c s' =>
      if is_digit c then digits_value_go s' (acc * 10 + (nat_of_ascii c - 48))
      else digits_value_go s' acc
  end.
Definition digits_value (s : string) : nat := digits_value_go s 0.

Fixpoint all_digits (s : string) : bool :=
  match s with
  | EmptyString => true
  | String c s' => is_digit c && all_digits s'
  end.

Definition option_eq_ascii (o : option ascii) (c : ascii) : bool :=
  match o with Some c' => Ascii.eqb c' c | None => false end.

(** The [%z] branch of [_strptime]: colons must be used consistently, and
    [datetime.timezone] wants an offset below 24 hours. *)
Definition tz_ok (z : string) : bool :=
  if String.eqb z "Z" then true
  else
    let z1 :=
      if option_eq_ascii (String.get 3 z) ":"%char then
        let z' := substring 0 3 z ++ drop_n 4 z in
        if (5 <? String.length z')%nat then
          if option_eq_ascii (String.get 5 z') ":"%char
          then Some (substring 0 5 z' ++ drop_n 6 z') else None
        else Some z'
      else Some z in
    match z1 with
    | None => false
    | Some z1 => all_digits (substring 5 2 z1) && (digits_value (substring 1 2 z1) <? 24)%nat
    end.

Definition is_leap (y : nat) : bool :=
  ((y mod 4 =? 0) && (negb (y mod 100 =? 0) || (y mod 400 =? 0)))%nat.

Definition days_in_month (y m : nat) : nat :=
  match m with
  | 2 => if is_leap y then 29 else 28
  | 4 | 6 | 9 | 11 => 30
  | _ => 31
  end%nat.

(** [str(n)] and the zero padding of [date.isoformat]. *)
Definition show_nat (n : nat) : string := NilEmpty.string_of_uint (Nat.to_uint n).

Definition zero_pad (w : nat) (s : string) : string :=
  append (String.concat "" (repeat "0" (w - String.length s))) s.

(** [str(datetime.strptime(date, "%Y-%m-%dT%H:%M:%S%z").date())]: the
    [datetime] constructor rejects a day past the end of the month, year 0
    and a second of 60 or 61, which the regular expression lets through. *)
Definition strptime_date (date : string) : result string :=
  match match_format re_format date with
  | ([y; _; m; _; d; _; _; _; _; _; sec; z], rest) :: _ =>
      if negb (String.eqb rest EmptyString) then Raise ValueError
      else
        let year := digits_value y in
        let month := digits_value m in
        let day := digits_value d in
        if ((1 <=? year) && (day <=? days_in_month year month)
            && (digits_value sec <=? 59))%nat && tz_ok z
        then Ok (zero_pad 4 (show_nat year) ++ "-" ++ zero_pad 2 (show_nat month)
                 ++ "-" ++ zero_pad 2 (show_nat day))
        else Raise ValueError
  | _ => Raise ValueError
  end.

(** ** The index page (lines 130-193) *)

Definition post_entry (date filename title : string) : string :=
  "<li><span>" ++ date ++ "</span>&nbsp;<a href=" ++ dq ++ filename ++ dq ++ ">"
  ++ title ++ "</a></li>".

(** The loop of [build_posts]: the lookups of one post run in the order of
    lines 133-137, before the draft test of line 138. *)
Fixpoint build_posts_go (all_posts : list dict) : result string :=
  match all_posts with
  | [] => Ok EmptyString
  | post :: posts =>
      fname <- dict_getitem post "filename" ;;
      let filename := "/posts/" ++ fname in
      title <- dict_getitem post "title" ;;
      date <- dict_getitem post "date" ;;
      date <- strptime_date date ;;
      is_draft <- dict_getitem post "draft" ;;
      rest <- build_posts_go posts ;;
      Ok ((if String.eqb is_draft "false" then post_entry date filename title
           else EmptyString) ++ rest)
  end.

(** Lines 130-141. *)
Definition build_posts (all_posts : list dict) : result string :=
  fmap (fun body => "<ul>" ++ body ++ "</ul>") (build_posts_go all_posts).

Fixpoint build_projects_go (projects : list dict) : result string :=
  match projects with
  | [] => Ok EmptyString
  | project :: projects' =>
      t <- dict_getitem project "title" ;;
      u <- dict_getitem project "url" ;;
      rest <- build_projects_go projects' ;;
      Ok ("<li><a href=" ++ dq ++ u ++ dq ++ ">" ++ t ++ "</a></li>" ++ rest)
  end.

(** Lines 144-152. *)
Definition build_projects (projects : list dict) : result string :=
  fmap (fun body => "<ul>" ++ body ++ "</ul>") (build_projects_go projects).

Definition ALL_PROJECTS : list dict :=
  [[("title", "visualizations with canvas api");
    ("url", "https://rhaeguard.github.io/visualizations/")];
   [("title", "phont - rendering ttf fonts from scratch");
    ("url", "https://github.com/rhaeguard/phont")];
   [("title", "rgx - a tiny regex engine");
    ("url", "https://github.com/rhaeguard/rgx")];
   [("title", "shum - a concatenative language for jvm");
    ("url", "https://github.com/rhaeguard/shum")];
   [("title", "snake - a snake game with procedurally-generated maps");
    ("url", "https://github.com/rhaeguard/snake")];
   [("title", "cells - a spreadsheet with lisp-like formulas");
    ("url", "https://github.com/rhaeguard/cells")]].

(** Lines 183-193. *)
Definition build_index_page (index_template html_template : string) (posts_metadata : list dict)
  : result string :=
  posts <- build_posts posts_metadata ;;
  projects <- build_projects ALL_PROJECTS ;;
  let index_html := replace (replace index_template "{{POSTS}}" posts) "{{PROJECTS}}" projects in
  Ok (replace (replace html_template "{{CONTENT}}" index_html) "{{title}}"
        ("rhaeguard" ++ String "039"%char "s blog")).

(** ** Static assets (lines 122-127) *)

(** [s.endswith(suffix)] *)
Definition endswith (suffix s : string) : bool :=
  let n := String.length s in
  let m := String.length suffix in
  (m <=? n)%nat && String.eqb (substring (n - m) m s) suffix.

(** [glob.glob("./static/*")]: a [*] does not match a name that starts
    with a dot. *)
Definition glob_star (names : list string) : list string :=
  filter (fun name => negb (startswith "." name)) names.

Section Assets.

(** PIL: [Image.open(file)], which raises on what it cannot read, and the
    bytes [img.save(path, optimize=True)] writes. *)
Variable Image : Type.
Variable image_open : string -> option Image.
Variable image_save_optimized : Image -> string.

Fixpoint move_static_go (names : list string) : result (list (string * string)) :=
  match names with
  | [] => Ok []
  | filename :: names' =>
      if endswith ".png" filename then
        match image_open ("./static/" ++ filename) with
        | Some img =>
            rest <- move_static_go names' ;;
            Ok (("./build/" ++ filename, image_save_optimized img) :: rest)
        | None => Raise OSError
        end
      else move_static_go names'
  end.

(** The files written by the loop, from the names in [./static]. *)
Definition move_static_assets (entries : list string) : result (list (string * string)) :=
  move_static_go (glob_star entries).

End Assets.

(** * Auxiliary notions used in the statements *)

Fixpoint has_char (c : ascii) (s : string) : bool :=
  match s with
  | EmptyString => false
  | String c' s' => Ascii.eqb c c' || has_char c s'
  end.

Fixpoint str_forall (p : ascii -> bool) (s : string) : bool :=
  match s with
  | EmptyString => true
  | String c s' => p c && str_forall p s'
  end.

(** A marker without a proper border: no non-empty proper suffix of it is
    also a prefix of it. *)
Definition border_free_prop (p : string) : Prop :=
  forall x u w, x <> EmptyString -> u <> EmptyString -> p = x ++ u -> p = u ++ w -> False.

Definition border_free (p : string) : bool :=
  forallb (fun k => negb (startswith (drop_n k p) p)) (seq 1 (String.length p - 1)).

(** A fenced code block as Python-Markdown renders it. *)
Definition code_block (lang code : string) : string :=
  code_open ++ lang ++ code_lang_end ++ code ++ code_close.

Arguments hilite_code {Lexer} get_lexer_by_name highlight lang code.
Arguments highlight_code_blocks {Lexer} get_lexer_by_name highlight out_html.
Arguments process_post {Lexer} get_lexer_by_name highlight markdown_convert
  single_post_template html_template cvars filename source.
Arguments process_post_spec_order {Lexer} get_lexer_by_name highlight markdown_convert
  single_post_template html_template cvars filename source.
Arguments build_post_pages {Lexer} get_lexer_by_name highlight markdown_convert
  single_post_template html_template cvars files posts_metadata.
Arguments move_static_go {Image} image_open image_save_optimized names.
Arguments move_static_assets {Image} image_open image_save_optimized entries.

(** A page made of text segments, each followed by a fenced code block. *)
Fixpoint page_of (segs : list (string * string * string)) (tail : string) : string :=
  match segs with
  | [] => tail
  | (t, lang, code) :: segs' => t ++ code_block lang code ++ page_of segs' tail
  end.

(** A segment whose text holds no code-block opening, whose language tag is
    made of letters [a-z] and whose code is non-empty and holds no
    ["</code></pre>"]: the shape Python-Markdown gives a fenced block. *)
Definition segment_ok (seg : string * string * string) : bool :=
  let '(t, lang, code) := seg in
  match find code_open (t ++ code_open) with
  | Some n => (n =? String.length t)%nat
  | None => false
  end
  && negb (String.eqb lang EmptyString) && str_forall is_lower lang
  && negb (String.eqb code EmptyString)
  && match find code_close code with None => true | Some _ => false end.

Definition concat_all (l : list string) : string := fold_right append EmptyString l.

(** Number of positions of [s] where [p] starts. *)
Fixpoint count_sub (p s : string) : nat :=
  match s with
  | EmptyString => 0
  | String _ s' => (if startswith p s then 1 else 0) + count_sub p s'
  end%nat.

(** The entry [build_posts] renders for a post it lists. *)
Definition listed_entry (post : dict) : string :=
  match dict_get "filename" post, dict_get "title" post, dict_get "date" post with
  | Some f, Some t, Some d =>
      match strptime_date d with
      | Ok ds => post_entry ds ("/posts/" ++ f) t
      | Raise _ => EmptyString
      end
  | _, _, _ => EmptyString
  end.

Definition is_listed (post : dict) : bool :=
  match dict_get "draft" post with Some v => String.eqb v "false" | None => false end.

(** A post [build_posts] gets through: every key it reads is there and the
    date parses. *)
Definition post_ok (post : dict) : bool :=
  match dict_get "filename" post, dict_get "title" post, dict_get "date" post,
        dict_get "draft" post with
  | Some _, Some _, Some d, Some _ =>
      match strptime_date d with Ok _ => true | Raise _ => false end
  | _, _, _, _ => false
  end.

Definition nl : string := String "010"%char EmptyString.

Fixpoint join_lines (ls : list string) : string :=
  match ls with
  | [] => EmptyString
  | [l] => l
  | l :: ls' => l ++ nl ++ join_lines ls'
  end.

Definition meta_line (kv : string * string) : string := fst kv ++ " = " ++ snd kv.

(** Every entry written back as a [key = value] line. *)
Definition serialize_metadata (m : dict) : string := join_lines (map meta_line m).

Definition nobreak (s : string) : bool := str_forall (fun c => negb (is_line_break c)) s.

(** The entries the metadata parser produces: stripped, a key without
    ["="], no line break. *)
Definition meta_entry_ok (kv : string * string) : bool :=
  String.eqb (strip (fst kv)) (fst kv) && String.eqb (strip (snd kv)) (snd kv)
  && negb (has_char "=" (fst kv)) && nobreak (fst kv) && nobreak (snd kv).

(** A later line that is blank or sets a key other than [k]. *)
Definition line_keeps (k line : string) : bool :=
  String.eqb (strip line) EmptyString
  || match parse_meta_line line with
     | Ok (k', _) => negb (String.eqb k' k)
     | Raise _ => true
     end.

(** The entry [build_projects] renders for a project. *)
Definition project_entry (project : dict) : string :=
  match dict_get "title" project, dict_get "url" project with
  | Some t, Some u => "<li><a href=" ++ dq ++ u ++ dq ++ ">" ++ t ++ "</a></li>"
  | _, _ => EmptyString
  end.

Definition project_ok (project : dict) : bool :=
  dict_mem "title" project && dict_mem "url" project.

(** A page of segments with each code block replaced by [render lang code]. *)
Fixpoint rendered_page (render : string -> string -> string)
  (segs : list (string * string * string)) (tail : string) : string :=
  match segs with
  | [] => tail
  | (t, lang, code) :: segs' => t ++ render lang code ++ rendered_page render segs' tail
  end.

(** * Facts about the string operations *)

Lemma sapp_nil_r (s : string) : s ++ "" = s.
Proof. induction s as [|c s IH]; simpl; [reflexivity | now rewrite IH]. Qed.

Lemma sapp_assoc (a b c : string) : (a ++ b) ++ c = a ++ (b ++ c).
Proof. induction a as [|x a IH]; simpl; [reflexivity | now rewrite IH]. Qed.

Lemma slength_app (a b : string) :
  String.length (a ++ b) = String.length a + String.length b.
Proof. induction a as [|x a IH]; simpl; [reflexivity | now rewrite IH]. Qed.

Lemma startswith_app (p s : string) : startswith p (p ++ s) = true.
Proof. induction p as [|a p IH]; simpl; [reflexivity | now rewrite Ascii.eqb_refl, IH]. Qed.

Lemma startswith_true (p s : string) : startswith p s = true -> exists r, s = p ++ r.
Proof.
  revert s; induction p as [|a p IH]; intros s H.
  - exists s; reflexivity.
  - destruct s as [|b s]; simpl in H; [discriminate|].
    apply andb_prop in H as [H1 H2]. apply Ascii.eqb_eq in H1; subst b.
    destruct (IH s H2) as [r ->]. exists r; reflexivity.
Qed.

Lemma startswith_app_long (p x y : string) :
  String.length p <= String.length x -> startswith p (x ++ y) = startswith p x.
Proof.
  revert x; induction p as [|a p IH]; intros x Hl; [reflexivity|].
  destruct x as [|b x]; simpl in Hl; [lia|]. simpl. rewrite IH by lia. reflexivity.
Qed.

Lemma startswith_app_cases (p x y : string) :
  startswith p (x ++ y) = true ->
  startswith p x = true \/ exists u, p = x ++ u /\ startswith u y = true.
Proof.
  revert p; induction x as [|b x IH]; intros p H.
  - right. exists p. split; [reflexivity | exact H].
  - destruct p as [|a p]; [left; reflexivity|].
    simpl in H. apply andb_prop in H as [H1 H2]. apply Ascii.eqb_eq in H1; subst a.
    destruct (IH p H2) as [H|[u [-> Hu]]].
    + left. simpl. rewrite Ascii.eqb_refl. exact H.
    + right. exists u. split; [reflexivity | exact Hu].
Qed.

Lemma drop_n_app (p s : string) : drop_n (String.length p) (p ++ s) = s.
Proof. induction p as [|a p IH]; simpl; auto. Qed.

Lemma drop_n_app_le (i : nat) (a b : string) :
  i <= String.length a -> drop_n i (a ++ b) = drop_n i a ++ b.
Proof.
  revert i; induction a as [|c a IH]; intros i Hi; destruct i; simpl in *;
    try reflexivity; try lia.
  apply IH; lia.
Qed.

Lemma slength_drop_n (i : nat) (s : string) :
  String.length (drop_n i s) = String.length s - i.
Proof.
  revert s; induction i as [|i IH]; intros s; destruct s as [|c s]; simpl; try lia.
  apply IH.
Qed.

Lemma find_first (p s : string) (n : nat) :
  find p s = Some n ->
  startswith p (drop_n n s) = true /\
  forall i, i < n -> startswith p (drop_n i s) = false.
Proof.
  revert n; induction s as [|c s IH]; intros n H; simpl in H.
  - destruct (startswith p "") eqn:E; inversion H; subst.
    split; [exact E | intros; lia].
  - destruct (startswith p (String c s)) eqn:E.
    + inversion H; subst. split; [exact E | intros; lia].
    + destruct (find p s) as [m|] eqn:F; simpl in H; inversion H; subst.
      destruct (IH m eq_refl) as [H1 H2]. split; [exact H1|].
      intros [|i] Hi; [exact E|]. simpl. apply H2; lia.
Qed.

Lemma find_none (p s : string) :
  find p s = None -> forall i, startswith p (drop_n i s) = false.
Proof.
  induction s as [|c s IH]; intros H i; simpl in H.
  - destruct (startswith p "") eqn:E; [discriminate|]. destruct i; exact E.
  - destruct (startswith p (String c s)) eqn:E; [discriminate|].
    destruct (find p s) eqn:F; [discriminate|].
    destruct i; [exact E|]. simpl. apply IH; reflexivity.
Qed.

Lemma find_app (p a b : string) (j : nat) :
  find p a = Some j -> j + String.length p <= String.length a ->
  find p (a ++ b) = Some j.
Proof.
  revert j; induction a as [|c a IH]; intros j H Hl; simpl in H.
  - destruct p; simpl in *; [inversion H; subst; destruct b; reflexivity | discriminate].
  - change (String c a ++ b) with (String c (a ++ b)).
    simpl.
    assert (Hs : startswith p (String c (a ++ b)) = startswith p (String c a)).
    { change (String c (a ++ b)) with (String c a ++ b).
      apply startswith_app_long. simpl in Hl |- *; lia. }
    rewrite Hs.
    destruct (startswith p (String c a)); [exact H|].
    destruct (find p a) as [m|] eqn:F; simpl in H; inversion H; subst.
    rewrite (IH m eq_refl) by (simpl in Hl; lia). reflexivity.
Qed.


Lemma has_char_app (c : ascii) (a b : string) :
  has_char c (a ++ b) = has_char c a || has_char c b.
Proof. induction a as [|x a IH]; simpl; [reflexivity | now rewrite IH, orb_assoc]. Qed.

Lemma has_char_mid (c : ascii) (a b : string) : has_char c (a ++ String c b) = true.
Proof. rewrite has_char_app. simpl. rewrite Ascii.eqb_refl. apply orb_true_r. Qed.

(** ** The [re.sub] scan *)

Lemma re_sub_go_skip (m : string -> option (nat * string)) (x s : string) :
  re_sub_go m (String.length x) (x ++ s) = re_sub_go m 0 s.
Proof. induction x as [|c x IH]; simpl; auto. Qed.

Lemma re_sub_go_pass (m : string -> option (nat * string)) (pre s : string) :
  (forall i, i < String.length pre -> m (drop_n i (pre ++ s)) = None) ->
  re_sub_go m 0 (pre ++ s) = pre ++ re_sub_go m 0 s.
Proof.
  induction pre as [|c pre IH]; intros H; [reflexivity|].
  simpl. pose proof (H 0 ltac:(simpl; lia)) as H0. simpl in H0. rewrite H0.
  f_equal. apply IH. intros i Hi. apply (H (S i)). simpl; lia.
Qed.

Lemma re_sub_call_go_skip (m : string -> option (nat * result string)) (x s : string) :
  re_sub_call_go m (String.length x) (x ++ s) = re_sub_call_go m 0 s.
Proof. induction x as [|c x IH]; simpl; auto. Qed.

Lemma re_sub_call_go_pass (m : string -> option (nat * result string)) (pre s : string) :
  (forall i, i < String.length pre -> m (drop_n i (pre ++ s)) = None) ->
  re_sub_call_go m 0 (pre ++ s) = fmap (fun r => pre ++ r) (re_sub_call_go m 0 s).
Proof.
  induction pre as [|c pre IH]; intros H.
  - simpl. destruct (re_sub_call_go m 0 s); reflexivity.
  - simpl. pose proof (H 0 ltac:(simpl; lia)) as H0. simpl in H0. rewrite H0.
    rewrite IH by (intros i Hi; apply (H (S i)); simpl; lia).
    destruct (re_sub_call_go m 0 s); reflexivity.
Qed.

Lemma re_sub_go_head (m : string -> option (nat * string)) (x s r : string) :
  x <> EmptyString -> m (x ++ s) = Some (String.length x, r) ->
  re_sub_go m 0 (x ++ s) = r ++ re_sub_go m 0 s.
Proof.
  destruct x as [|c x]; intros Hx Hm; [congruence|].
  simpl in Hm |- *. rewrite Hm. f_equal.
  replace (S (String.length x) - 1) with (String.length x) by lia.
  apply re_sub_go_skip.
Qed.

Lemma re_sub_call_go_head (m : string -> option (nat * result string)) (x s : string)
  (r : result string) :
  x <> EmptyString -> m (x ++ s) = Some (String.length x, r) ->
  re_sub_call_go m 0 (x ++ s) = (r' <- r ;; rest <- re_sub_call_go m 0 s ;; Ok (r' ++ rest)).
Proof.
  destruct x as [|c x]; intros Hx Hm; [congruence|].
  simpl in Hm |- *. rewrite Hm.
  replace (S (String.length x) - 1) with (String.length x) by lia.
  rewrite re_sub_call_go_skip. reflexivity.
Qed.

(** Positions before the first occurrence of [p] in [pre ++ p] do not start
    an occurrence of [p], whatever follows [pre ++ p]. *)
Lemma first_occurrence_before (p pre s : string) (i : nat) :
  find p (pre ++ p) = Some (String.length pre) -> i < String.length pre ->
  startswith p (drop_n i (pre ++ p ++ s)) = false.
Proof.
  intros Hf Hi.
  rewrite drop_n_app_le by lia. rewrite <- sapp_assoc.
  rewrite startswith_app_long by (rewrite slength_app, slength_drop_n; lia).
  rewrite <- drop_n_app_le by lia.
  apply (proj2 (find_first _ _ _ Hf)); exact Hi.
Qed.

Lemma startswith_refl (p : string) : startswith p p = true.
Proof. rewrite <- (sapp_nil_r p) at 2. apply startswith_app. Qed.

(** ** Non-greedy matching up to a closing marker *)


Lemma border_free_spec (p : string) : border_free p = true -> border_free_prop p.
Proof.
  unfold border_free, border_free_prop. intros H x u w Hx Hu E1 E2.
  rewrite forallb_forall in H. specialize (H (String.length x)).
  assert (Hd : drop_n (String.length x) p = u) by (rewrite E1; apply drop_n_app).
  assert (Hs : startswith u p = true) by (rewrite E2; apply startswith_app).
  rewrite Hd, Hs in H. simpl in H.
  assert (Hin : In (String.length x) (seq 1 (String.length p - 1))).
  { apply in_seq. rewrite E1, slength_app.
    destruct x as [|a x]; [congruence|]. destruct u as [|b u]; [congruence|].
    simpl; lia. }
  specialize (H Hin). discriminate.
Qed.

Lemma lazy_until_cons (close : string) (c : ascii) (s : string) :
  lazy_until close (String c s) =
  if startswith close s then Some (String c EmptyString, drop_n (String.length close) s)
  else match lazy_until close s with
       | Some (inner, rest) => Some (String c inner, rest)
       | None => None
       end.
Proof. reflexivity. Qed.

Lemma find_cons_none (p : string) (c : ascii) (s : string) :
  find p (String c s) = None -> startswith p (String c s) = false /\ find p s = None.
Proof.
  simpl. destruct (startswith p (String c s)); [discriminate|].
  destruct (find p s); [discriminate|]. auto.
Qed.

(** [((.|\n)+?)close] takes exactly a non-empty [A] that does not contain
    [close] when [close] follows it. *)
Lemma lazy_until_block (close A rest : string) :
  border_free_prop close -> A <> EmptyString -> find close A = None ->
  lazy_until close (A ++ close ++ rest) = Some (A, rest).
Proof.
  intros BF. induction A as [|c A IH]; intros Hne Hf; [congruence|].
  apply find_cons_none in Hf as [E F].
  change (String c A ++ close ++ rest) with (String c (A ++ close ++ rest)).
  rewrite lazy_until_cons.
  destruct A as [|c' A'].
  - simpl. rewrite startswith_app, drop_n_app. reflexivity.
  - assert (Hs : startswith close (String c' A' ++ close ++ rest) = false).
    { destruct (startswith close (String c' A' ++ close ++ rest)) eqn:E2; [|reflexivity].
      exfalso. pose proof (find_none _ _ F 0) as F0. simpl drop_n in F0.
      apply startswith_app_cases in E2 as [E2|[u [Hu Hu2]]]; [congruence|].
      destruct u as [|a u'].
      - rewrite sapp_nil_r in Hu. rewrite <- Hu, startswith_refl in F0. discriminate.
      - rewrite startswith_app_long in Hu2 by (rewrite Hu, slength_app; simpl; lia).
        apply startswith_true in Hu2 as [w Hw].
        apply (BF (String c' A') (String a u') w); try discriminate; assumption. }
    rewrite Hs, IH; [reflexivity | discriminate | exact F].
Qed.

(** The end marker of a conditional block has no border when the variable
    name holds no ["{"]. *)
Lemma exists_close_border_free (X : string) :
  has_char "{" X = false -> border_free_prop (exists_close X).
Proof.
  intros HX x u w Hx Hu E1 E2.
  destruct x as [|a x]; [congruence|].
  destruct u as [|b u]; [congruence|].
  unfold exists_close in E1, E2. simpl in E1, E2.
  injection E2 as Hb E2. injection E1 as Ha E1. subst a b.
  destruct x as [|a x].
  - simpl in E1. injection E1 as E1. subst u.
    simpl in E2. discriminate E2.
  - simpl in E1. injection E1 as Ha E1. subst a.
    pose proof (has_char_mid "{" x u) as H. rewrite <- E1 in H.
    simpl in H. rewrite has_char_app, HX in H. discriminate H.
Qed.

Lemma take_while_forall (p : ascii -> bool) (s : string) : str_forall p (take_while p s) = true.
Proof.
  induction s as [|c s IH]; simpl; [reflexivity|].
  destruct (p c) eqn:E; simpl; [rewrite E, IH; reflexivity | reflexivity].
Qed.

Lemma take_while_app (p : ascii -> bool) (a b : string) :
  str_forall p a = true ->
  match b with String c _ => p c = false | EmptyString => True end ->
  take_while p (a ++ b) = a.
Proof.
  induction a as [|c a IH]; simpl; intros Ha Hb.
  - destruct b as [|c b]; simpl; [reflexivity | rewrite Hb; reflexivity].
  - apply andb_prop in Ha as [H1 H2]. rewrite H1, IH; auto.
Qed.

(** Names found by the template scan are made of word characters. *)
Lemma findall_exists_word (k : nat) (s X : string) :
  In X (findall_exists_go k s) -> str_forall is_word X = true.
Proof.
  revert k; induction s as [|c s IH]; intros k H; simpl in H; [contradiction|].
  destruct k as [|k]; [|eapply IH; eauto].
  destruct (match_exists_marker (String c s)) as [[name n]|] eqn:M; [|eapply IH; eauto].
  destruct H as [<-|H]; [|eapply IH; eauto].
  unfold match_exists_marker in M.
  destruct (startswith "{{exists:" (String c s)); [|discriminate].
  destruct (_ && _); [|discriminate].
  inversion M; subst. apply take_while_forall.
Qed.

Lemma word_no_brace (X : string) : str_forall is_word X = true -> has_char "{" X = false.
Proof.
  induction X as [|c X IH]; cbn [str_forall has_char]; [reflexivity|]. intros H.
  apply andb_prop in H as [H1 H2]. rewrite IH by exact H2.
  destruct (Ascii.eqb "{" c) eqn:E; [|reflexivity].
  apply Ascii.eqb_eq in E; subst c. discriminate H1.
Qed.

Lemma scanned_no_brace (pages : list string) (X : string) :
  In X (scan_conditional_variables pages) -> has_char "{" X = false.
Proof.
  unfold scan_conditional_variables. rewrite in_flat_map. intros [page [_ H]].
  apply word_no_brace. eapply findall_exists_word; eauto.
Qed.

Lemma match_conditional_block (X : string) (b : bool) (A rest : string) :
  has_char "{" X = false -> A <> EmptyString -> find (exists_close X) A = None ->
  match_conditional X b ((exists_open X ++ A ++ exists_close X) ++ rest)
  = Some (String.length (exists_open X ++ A ++ exists_close X),
          if b then A else EmptyString).
Proof.
  intros HX HA HF. unfold match_conditional.
  rewrite !sapp_assoc, startswith_app, drop_n_app.
  rewrite lazy_until_block by (auto using exists_close_border_free).
  rewrite !slength_app, !Nat.add_assoc. reflexivity.
Qed.

(** One conditional block, reached by the scan after a prefix [pre] that
    holds no opening marker of the same variable. *)
Lemma conditional_sub_block (X : string) (b : bool) (pre A rest : string) :
  has_char "{" X = false -> A <> EmptyString -> find (exists_close X) A = None ->
  find (exists_open X) (pre ++ exists_open X) = Some (String.length pre) ->
  conditional_sub X b (pre ++ exists_open X ++ A ++ exists_close X ++ rest)
  = pre ++ (if b then A else EmptyString) ++ conditional_sub X b rest.
Proof.
  intros HX HA HF Hpre. unfold conditional_sub, re_sub.
  rewrite re_sub_go_pass.
  2: { intros i Hi. unfold match_conditional.
       rewrite (first_occurrence_before _ _ _ _ Hpre Hi). reflexivity. }
  f_equal.
  replace (exists_open X ++ A ++ exists_close X ++ rest)
    with ((exists_open X ++ A ++ exists_close X) ++ rest) by (rewrite !sapp_assoc; reflexivity).
  rewrite (re_sub_go_head _ _ _ (if b then A else EmptyString)).
  - reflexivity.
  - unfold exists_open. simpl. discriminate.
  - apply match_conditional_block; assumption.
Qed.

Lemma code_close_border_free : border_free_prop code_close.
Proof. apply border_free_spec. vm_compute. reflexivity. Qed.

Lemma match_code_block_block (lang code rest : string) :
  lang <> EmptyString -> str_forall is_lower lang = true ->
  code <> EmptyString -> find code_close code = None ->
  match_code_block (code_block lang code ++ rest)
  = Some (lang, code, String.length (code_block lang code)).
Proof.
  intros HL HL' HC HF. unfold match_code_block, code_block.
  rewrite !sapp_assoc, startswith_app, drop_n_app.
  rewrite take_while_app; [| exact HL' | unfold code_lang_end, dq; simpl; reflexivity].
  rewrite drop_n_app, startswith_app.
  assert (H0 : (0 <? String.length lang)%nat = true)
    by (destruct lang; [congruence | reflexivity]).
  rewrite H0. simpl andb.
  rewrite drop_n_app, lazy_until_block by (auto using code_close_border_free).
  rewrite !slength_app, !Nat.add_assoc. reflexivity.
Qed.

(** ** Highlighting of fenced code blocks *)

(** One code block, reached by the scan after a prefix [pre] that holds no
    opening of a code block. *)
Lemma highlight_code_blocks_block {Lexer : Type} (gl : string -> option Lexer)
  (hl : string -> Lexer -> string) (pre lang code rest : string) :
  find code_open (pre ++ code_open) = Some (String.length pre) ->
  lang <> EmptyString -> str_forall is_lower lang = true ->
  code <> EmptyString -> find code_close code = None ->
  highlight_code_blocks gl hl (pre ++ code_block lang code ++ rest)
  = (r <- hilite_code gl hl lang code ;;
     rest' <- highlight_code_blocks gl hl rest ;;
     Ok (pre ++ r ++ rest')).
Proof.
  intros Hpre HL HL' HC HF. unfold highlight_code_blocks, re_sub_call.
  rewrite re_sub_call_go_pass.
  2: { intros i Hi. cbv beta.
       replace (code_block lang code ++ rest)
         with (code_open ++ (lang ++ code_lang_end ++ code ++ code_close ++ rest))
         by (unfold code_block; rewrite !sapp_assoc; reflexivity).
       unfold match_code_block.
       rewrite (first_occurrence_before _ _ _ _ Hpre Hi). reflexivity. }
  rewrite (re_sub_call_go_head _ _ _ (hilite_code gl hl lang code)).
  - destruct (hilite_code gl hl lang code); simpl; [|reflexivity].
    destruct (re_sub_call_go _ 0 rest); reflexivity.
  - unfold code_block, code_open. simpl. discriminate.
  - cbv beta. rewrite match_code_block_block by assumption. reflexivity.
Qed.

Lemma segment_ok_spec (t lang code : string) :
  segment_ok (t, lang, code) = true ->
  find code_open (t ++ code_open) = Some (String.length t) /\
  lang <> EmptyString /\ str_forall is_lower lang = true /\
  code <> EmptyString /\ find code_close code = None.
Proof.
  unfold segment_ok. intros H.
  repeat match goal with H : _ && _ = true |- _ => apply andb_prop in H as [? ?] end.
  repeat split.
  - destruct (find code_open (t ++ code_open)) as [n|]; [|discriminate].
    apply Nat.eqb_eq in H. subst n. reflexivity.
  - intros E. subst lang. discriminate.
  - assumption.
  - intros E. subst code. discriminate.
  - destruct (find code_close code); [discriminate | reflexivity].
Qed.

(** ** Slicing *)

Lemma norm_index_nat (k n : nat) : norm_index (Z.of_nat k) n = Nat.min k n.
Proof.
  unfold norm_index. destruct (Z.of_nat k <? 0)%Z eqn:E.
  - apply Z.ltb_lt in E. lia.
  - lia.
Qed.

Lemma norm_index_minus_one (n : nat) : norm_index (-1) n = n - 1.
Proof. unfold norm_index. simpl. lia. Qed.

Lemma substring_zero_len (n : nat) (s : string) : substring n 0 s = EmptyString.
Proof. revert s; induction n as [|n IH]; intros [|c s]; simpl; auto. Qed.

Lemma substring_app_l (n m : nat) (a b : string) :
  n + m <= String.length a -> substring n m (a ++ b) = substring n m a.
Proof.
  revert n m; induction a as [|c a IH]; intros n m Hl; simpl in Hl.
  - assert (n = 0 /\ m = 0) as [-> ->] by lia. destruct b; reflexivity.
  - destruct n as [|n]; destruct m as [|m]; simpl; try reflexivity.
    + f_equal. apply IH. lia.
    + apply IH. lia.
    + apply IH. lia.
Qed.

Lemma substring_whole (s : string) : substring 0 (String.length s) s = s.
Proof. induction s as [|c s IH]; simpl; [reflexivity | now rewrite IH]. Qed.

Lemma substring_app_r (a b : string) :
  substring (String.length a) (String.length b) (a ++ b) = b.
Proof. induction a as [|c a IH]; simpl; [apply substring_whole | exact IH]. Qed.

Lemma find_bound (p s : string) (n : nat) : find p s = Some n -> n <= String.length s.
Proof.
  revert n; induction s as [|c s IH]; intros n H; simpl in H.
  - destruct (startswith p ""); inversion H; simpl; lia.
  - destruct (startswith p (String c s)); [inversion H; lia|].
    destruct (find p s) as [m|] eqn:F; simpl in H; inversion H; subst.
    specialize (IH m eq_refl). simpl. lia.
Qed.

(** [out_html[4:ix]] only reads the first [ix] characters. *)
Lemma slice_four_prefix (m x : string) :
  slice (m ++ x) 4 (Z.of_nat (String.length m)) = slice m 4 (Z.of_nat (String.length m)).
Proof.
  unfold slice. change 4%Z with (Z.of_nat 4). rewrite !norm_index_nat, !slength_app.
  destruct (Nat.le_gt_cases 4 (String.length m)) as [H|H].
  - replace (Nat.min 4 (String.length m + String.length x)) with 4 by lia.
    replace (Nat.min 4 (String.length m)) with 4 by lia.
    replace (Nat.min (String.length m) (String.length m + String.length x))
      with (String.length m) by lia.
    rewrite Nat.min_id. apply substring_app_l. lia.
  - replace (Nat.min (String.length m) (String.length m + String.length x)
             - Nat.min 4 (String.length m + String.length x)) with 0 by lia.
    replace (Nat.min (String.length m) (String.length m) - Nat.min 4 (String.length m))
      with 0 by lia.
    rewrite !substring_zero_len. reflexivity.
Qed.

Lemma slice_from_app (a b : string) :
  slice_from (a ++ b) (Z.of_nat (String.length a)) = b.
Proof.
  unfold slice_from, slice. rewrite !norm_index_nat, !slength_app.
  replace (Nat.min (String.length a) (String.length a + String.length b)) with (String.length a)
    by lia.
  rewrite Nat.min_id. replace (String.length a + String.length b - String.length a)
    with (String.length b) by lia.
  apply substring_app_r.
Qed.

(** [value[:value.find("T")]] *)
Lemma meta_value_date (v : string) :
  meta_value "date" v =
  match find "T" v with
  | Some i => substring 0 i v
  | None => substring 0 (String.length v - 1) v
  end.
Proof.
  unfold meta_value. rewrite String.eqb_refl. unfold slice_to, slice, py_find.
  change 0%Z with (Z.of_nat 0). rewrite norm_index_nat. simpl Nat.min.
  destruct (find "T" v) as [i|] eqn:F.
  - rewrite norm_index_nat. apply find_bound in F.
    replace (Nat.min i (String.length v)) with i by lia. rewrite Nat.sub_0_r. reflexivity.
  - rewrite norm_index_minus_one, Nat.sub_0_r. reflexivity.
Qed.

Lemma substitute_metadata_app (md1 md2 : dict) (html : string) :
  substitute_metadata (app md1 md2) html = substitute_metadata md2 (substitute_metadata md1 html).
Proof.
  revert html; induction md1 as [|[k v] md1 IH]; intros html; simpl; [reflexivity | apply IH].
Qed.

(** ** The metadata comment *)

Lemma extract_metadata_split (filename meta x : string) :
  find "-->" (meta ++ "-->") = Some (String.length meta) ->
  extract_metadata filename (meta ++ "-->" ++ x)
  = fmap (fun pm => {| ex_metadata := pm; ex_appended := true; ex_body := x |})
      (parse_metadata [("filename", filename)] (slice meta 4 (Z.of_nat (String.length meta)))).
Proof.
  intros Hf. unfold extract_metadata.
  rewrite <- sapp_assoc, (find_app _ _ _ _ Hf) by (rewrite slength_app; simpl; lia).
  rewrite sapp_assoc, slice_four_prefix, <- sapp_assoc.
  replace (Z.of_nat (String.length meta) + 3)%Z
    with (Z.of_nat (String.length (meta ++ "-->"))) by (rewrite slength_app; simpl; lia).
  rewrite slice_from_app.
  destruct (parse_metadata _ _); reflexivity.
Qed.

(** No code block opens before the end of the comment: highlighting leaves
    the comment alone. *)
Lemma highlight_after_comment {Lexer : Type} (gl : string -> option Lexer)
  (hl : string -> Lexer -> string) (meta body : string) :
  match find code_open (meta ++ "-->" ++ body) with
  | Some j => String.length meta + 3 <= j
  | None => True
  end ->
  highlight_code_blocks gl hl (meta ++ "-->" ++ body)
  = fmap (fun r => meta ++ "-->" ++ r) (highlight_code_blocks gl hl body).
Proof.
  intros Ho. unfold highlight_code_blocks, re_sub_call.
  rewrite <- sapp_assoc, re_sub_call_go_pass.
  - destruct (re_sub_call_go _ 0 body); simpl; [rewrite sapp_assoc|]; reflexivity.
  - intros i Hi. rewrite slength_app in Hi. simpl in Hi. rewrite sapp_assoc.
    unfold match_code_block.
    assert (Hs : startswith code_open (drop_n i (meta ++ "-->" ++ body)) = false).
    { destruct (find code_open (meta ++ "-->" ++ body)) as [j|] eqn:F.
      - apply (proj2 (find_first _ _ _ F)). lia.
      - apply find_none. exact F. }
    rewrite Hs. reflexivity.
Qed.

(** ** The list of posts *)

Lemma build_posts_go_ok (ps : list dict) (body : string) :
  build_posts_go ps = Ok body -> body = concat_all (map listed_entry (filter is_listed ps)).
Proof.
  revert body; induction ps as [|p ps IH]; intros body H; simpl in H.
  - inversion H; reflexivity.
  - unfold dict_getitem in H.
    destruct (dict_get "filename" p) as [f|] eqn:E1; [|discriminate]. simpl in H.
    destruct (dict_get "title" p) as [t|] eqn:E2; [|discriminate]. simpl in H.
    destruct (dict_get "date" p) as [d|] eqn:E3; [|discriminate]. simpl in H.
    destruct (strptime_date d) as [ds|] eqn:E4; [|discriminate]. simpl in H.
    destruct (dict_get "draft" p) as [dr|] eqn:E5; [|discriminate]. simpl in H.
    destruct (build_posts_go ps) as [r|] eqn:E6; [|discriminate]. simpl in H.
    inversion H; subst; clear H. rewrite (IH r eq_refl).
    simpl filter. unfold is_listed. rewrite E5.
    destruct (String.eqb dr "false").
    + simpl. unfold listed_entry. rewrite E1, E2, E3, E4. reflexivity.
    + reflexivity.
Qed.

Lemma post_ok_spec (p : dict) :
  post_ok p = true ->
  exists f t d ds dr, dict_get "filename" p = Some f /\ dict_get "title" p = Some t /\
    dict_get "date" p = Some d /\ strptime_date d = Ok ds /\ dict_get "draft" p = Some dr.
Proof.
  unfold post_ok.
  destruct (dict_get "filename" p) as [f|]; [|discriminate].
  destruct (dict_get "title" p) as [t|]; [|discriminate].
  destruct (dict_get "date" p) as [d|]; [|discriminate].
  destruct (dict_get "draft" p) as [dr|]; [|discriminate].
  destruct (strptime_date d) as [ds|] eqn:E; [|discriminate].
  intros _. exists f, t, d, ds, dr. auto.
Qed.

(** Posts [build_posts] gets through do not stop an error further on. *)
Lemma build_posts_go_raise_after (pre rest : list dict) (e : exn) :
  forallb post_ok pre = true -> build_posts_go rest = Raise e ->
  build_posts_go (app pre rest) = Raise e.
Proof.
  induction pre as [|p pre IH]; intros Hok Hr; simpl in Hok |- *; [exact Hr|].
  apply andb_prop in Hok as [Hp Hpre].
  destruct (post_ok_spec p Hp) as (f & t & d & ds & dr & E1 & E2 & E3 & E4 & E5).
  unfold dict_getitem. rewrite E1, E2, E3. simpl. rewrite E4, E5. simpl.
  rewrite IH by assumption. reflexivity.
Qed.

Lemma build_posts_go_bad (ps : list dict) :
  existsb (fun p => negb (post_ok p)) ps = true -> exists e, build_posts_go ps = Raise e.
Proof.
  induction ps as [|p ps IH]; simpl; [discriminate|]. intros H.
  destruct (post_ok p) eqn:Hp; simpl in H.
  - destruct (IH H) as [e He].
    destruct (post_ok_spec p Hp) as (f & t & d & ds & dr & E1 & E2 & E3 & E4 & E5).
    exists e. unfold dict_getitem. rewrite E1, E2, E3. simpl. rewrite E4, E5. simpl.
    rewrite He. reflexivity.
  - unfold post_ok in Hp. unfold dict_getitem.
    destruct (dict_get "filename" p) as [f|]; [|eexists; reflexivity]. simpl.
    destruct (dict_get "title" p) as [t|]; [|eexists; reflexivity]. simpl.
    destruct (dict_get "date" p) as [d|]; [|eexists; reflexivity]. simpl.
    destruct (strptime_date d) as [ds|]; [|eexists; reflexivity]. simpl.
    destruct (dict_get "draft" p) as [dr|]; [discriminate | eexists; reflexivity].
Qed.

(** ** Static assets *)

Lemma move_static_go_ok {Image : Type} (io : string -> option Image) (sv : Image -> string)
  (names : list string) (outs : list (string * string)) :
  move_static_go io sv names = Ok outs ->
  map fst outs = map (fun n => "./build/" ++ n) (filter (endswith ".png") names).
Proof.
  revert outs; induction names as [|n names IH]; intros outs H;
    cbn [move_static_go filter] in H |- *.
  - inversion H; reflexivity.
  - destruct (endswith ".png" n); [|apply IH; exact H].
    destruct (io ("./static/" ++ n)) as [img|]; [|discriminate].
    destruct (move_static_go io sv names) as [r|] eqn:E; simpl in H; [|discriminate].
    inversion H; subst. cbn [map fst]. f_equal. apply IH. reflexivity.
Qed.

Lemma move_static_go_total {Image : Type} (io : string -> option Image) (sv : Image -> string)
  (names : list string) :
  (forall n, In n names -> endswith ".png" n = true -> io ("./static/" ++ n) <> None) ->
  exists outs, move_static_go io sv names = Ok outs.
Proof.
  induction names as [|n names IH]; intros H; cbn [move_static_go];
    [eexists; reflexivity|].
  destruct IH as [r Hr]; [intros m Hm; apply H; right; exact Hm|].
  destruct (endswith ".png" n) eqn:E; [|exists r; exact Hr].
  destruct (io ("./static/" ++ n)) as [img|] eqn:I.
  - rewrite Hr. eexists; reflexivity.
  - exfalso. apply (H n (or_introl eq_refl) E). exact I.
Qed.

(** ** [strip] *)

Lemma lstrip_app_nonspace (a b : string) (c : ascii) :
  is_space c = false -> lstrip (a ++ String c b) = lstrip a ++ String c b.
Proof.
  intros Hc. induction a as [|x a IH]; simpl; [rewrite Hc; reflexivity|].
  destruct (is_space x); [exact IH | reflexivity].
Qed.

Lemma rstrip_cons_nonspace (c : ascii) (s : string) :
  is_space c = false -> rstrip (String c s) = String c (rstrip s).
Proof. intros Hc. simpl. destruct (rstrip s); [rewrite Hc|]; reflexivity. Qed.

Lemma rstrip_app_nonspace (a b : string) (c : ascii) :
  is_space c = false -> rstrip (a ++ String c b) = a ++ String c (rstrip b).
Proof.
  intros Hc. induction a as [|x a IH]; [apply rstrip_cons_nonspace; exact Hc|].
  cbn [append rstrip]. rewrite IH. destruct a; reflexivity.
Qed.

Lemma rstrip_app_space (a : string) (c : ascii) :
  is_space c = true -> rstrip (a ++ String c EmptyString) = rstrip a.
Proof.
  intros Hc. induction a as [|x a IH]; [simpl; rewrite Hc; reflexivity|].
  cbn [append rstrip]. rewrite IH. reflexivity.
Qed.

Lemma lstrip_app (a b : string) :
  lstrip (a ++ b) = match lstrip a with EmptyString => lstrip b | r => r ++ b end.
Proof.
  induction a as [|x a IH]; [reflexivity|]. simpl.
  destruct (is_space x); [exact IH | reflexivity].
Qed.

Lemma lstrip_idem (s : string) : lstrip (lstrip s) = lstrip s.
Proof.
  induction s as [|x s IH]; [reflexivity|]. simpl.
  destruct (is_space x) eqn:E; [exact IH | simpl; rewrite E; reflexivity].
Qed.

Lemma rstrip_cons (c : ascii) (s : string) :
  rstrip (String c s) =
  match rstrip s with
  | EmptyString => if is_space c then EmptyString else String c EmptyString
  | String a b => String c (String a b)
  end.
Proof. simpl. destruct (rstrip s); reflexivity. Qed.

Lemma rstrip_idem (s : string) : rstrip (rstrip s) = rstrip s.
Proof.
  induction s as [|x s IH]; [reflexivity|]. rewrite rstrip_cons.
  destruct (rstrip s) as [|y r] eqn:E.
  - destruct (is_space x) eqn:Ex; [reflexivity|]. simpl. rewrite Ex. reflexivity.
  - rewrite rstrip_cons, IH. reflexivity.
Qed.

Lemma lstrip_rstrip (s : string) : lstrip (rstrip s) = rstrip (lstrip s).
Proof.
  induction s as [|x s IH]; [reflexivity|].
  destruct (is_space x) eqn:Ex.
  - cbn [lstrip]. rewrite Ex, <- IH. cbn [rstrip].
    destruct (rstrip s) as [|y r]; simpl; rewrite ?Ex; reflexivity.
  - rewrite rstrip_cons_nonspace by exact Ex. simpl. rewrite Ex.
    rewrite rstrip_cons_nonspace by exact Ex. reflexivity.
Qed.

Lemma strip_idem (s : string) : strip (strip s) = strip s.
Proof. unfold strip. rewrite lstrip_rstrip, lstrip_idem, rstrip_idem. reflexivity. Qed.

Lemma lstrip_suffix (s : string) : exists p, s = p ++ lstrip s.
Proof.
  induction s as [|x s [p Hp]]; [exists EmptyString; reflexivity|]. simpl.
  destruct (is_space x); [exists (String x p); simpl; f_equal; exact Hp|].
  exists EmptyString; reflexivity.
Qed.

Lemma rstrip_prefix (s : string) : exists q, s = rstrip s ++ q.
Proof.
  induction s as [|x s [q Hq]]; [exists EmptyString; reflexivity|]. cbn [rstrip].
  destruct (rstrip s) as [|y r] eqn:E.
  - destruct (is_space x); [exists (String x s); reflexivity|].
    exists s; reflexivity.
  - exists q. simpl. f_equal. exact Hq.
Qed.

Lemma strip_infix (s : string) : exists p q, s = p ++ strip s ++ q.
Proof.
  destruct (lstrip_suffix s) as [p Hp]. destruct (rstrip_prefix (lstrip s)) as [q Hq].
  exists p, q. unfold strip. rewrite <- Hq. exact Hp.
Qed.

Lemma str_forall_app (f : ascii -> bool) (a b : string) :
  str_forall f (a ++ b) = str_forall f a && str_forall f b.
Proof. induction a as [|x a IH]; simpl; [reflexivity | now rewrite IH, andb_assoc]. Qed.

Lemma strip_str_forall (f : ascii -> bool) (s : string) :
  str_forall f s = true -> str_forall f (strip s) = true.
Proof.
  destruct (strip_infix s) as [p [q E]]. rewrite E at 1.
  rewrite !str_forall_app. intros H.
  apply andb_prop in H as [_ H]. apply andb_prop in H as [H _]. exact H.
Qed.

Lemma strip_has_char (c : ascii) (s : string) :
  has_char c s = false -> has_char c (strip s) = false.
Proof.
  destruct (strip_infix s) as [p [q E]]. rewrite E at 1.
  rewrite !has_char_app. intros H.
  apply orb_false_elim in H as [_ H]. apply orb_false_elim in H as [H _]. exact H.
Qed.

Lemma split_once_app (c : ascii) (a b : string) :
  has_char c a = false -> split_once c (a ++ String c b) = Some (a, b).
Proof.
  induction a as [|x a IH]; intros H; simpl; [rewrite Ascii.eqb_refl; reflexivity|].
  simpl in H. apply orb_false_elim in H as [H1 H2].
  rewrite Ascii.eqb_sym, H1, IH by exact H2. reflexivity.
Qed.

Lemma split_once_spec (c : ascii) (s a b : string) :
  split_once c s = Some (a, b) -> s = a ++ String c b /\ has_char c a = false.
Proof.
  revert a; induction s as [|x s IH]; intros a H; simpl in H; [discriminate|].
  destruct (Ascii.eqb x c) eqn:E.
  - inversion H; subst. apply Ascii.eqb_eq in E; subst. auto.
  - destruct (split_once c s) as [[a' b']|]; [|discriminate].
    inversion H; subst. destruct (IH a' eq_refl) as [-> Ha].
    split; [reflexivity|]. simpl. rewrite Ascii.eqb_sym, E, Ha. reflexivity.
Qed.

(** ** Metadata lines *)

Lemma strip_kv (k0 v0 : string) :
  strip (k0 ++ "=" ++ v0) = lstrip k0 ++ "=" ++ rstrip v0.
Proof.
  unfold strip. change ("=" ++ v0) with (String "=" v0).
  rewrite lstrip_app_nonspace, rstrip_app_nonspace by reflexivity. reflexivity.
Qed.

Lemma parse_meta_line_kv (k0 v0 : string) :
  has_char "=" k0 = false -> parse_meta_line (k0 ++ "=" ++ v0) = Ok (strip k0, strip v0).
Proof.
  intros Hk. unfold parse_meta_line. rewrite strip_kv.
  change ("=" ++ rstrip v0) with (String "=" (rstrip v0)).
  rewrite split_once_app.
  - unfold strip. rewrite lstrip_idem, lstrip_rstrip, rstrip_idem. reflexivity.
  - destruct (lstrip_suffix k0) as [p Hp]. rewrite Hp, has_char_app in Hk.
    apply orb_false_elim in Hk as [_ Hk]. exact Hk.
Qed.

Lemma strip_kv_nonempty (k0 v0 : string) : String.eqb (strip (k0 ++ "=" ++ v0)) EmptyString = false.
Proof. rewrite strip_kv. destruct (lstrip k0); reflexivity. Qed.

Lemma parse_meta_lines_app (d : dict) (ls1 ls2 : list string) :
  parse_meta_lines d (app ls1 ls2) = (d1 <- parse_meta_lines d ls1 ;; parse_meta_lines d1 ls2).
Proof.
  revert d; induction ls1 as [|l ls1 IH]; intros d; simpl; [reflexivity|].
  destruct (String.eqb (strip l) EmptyString); [apply IH|].
  destruct (parse_meta_line l); simpl; [apply IH | reflexivity].
Qed.

Lemma dict_get_set_same (k v : string) (d : dict) : dict_get k (dict_set k v d) = Some v.
Proof.
  induction d as [|[k' v'] d IH]; simpl; [rewrite String.eqb_refl; reflexivity|].
  destruct (String.eqb k k') eqn:E; simpl; rewrite ?String.eqb_refl, ?E; auto.
Qed.

Lemma dict_get_set_other (k k2 v : string) (d : dict) :
  k <> k2 -> dict_get k (dict_set k2 v d) = dict_get k d.
Proof.
  intros Hne. assert (E : String.eqb k k2 = false) by (apply String.eqb_neq; exact Hne).
  induction d as [|[k' v'] d IH]; simpl; [rewrite E; reflexivity|].
  destruct (String.eqb k2 k') eqn:E2; simpl.
  - apply String.eqb_eq in E2; subst k'. rewrite E. reflexivity.
  - destruct (String.eqb k k'); [reflexivity | exact IH].
Qed.

(** Lines that leave the key [k] alone keep its value. *)
Lemma parse_meta_lines_keep (k v : string) (d m : dict) (ls : list string) :
  dict_get k d = Some v -> forallb (line_keeps k) ls = true ->
  parse_meta_lines d ls = Ok m -> dict_get k m = Some v.
Proof.
  revert d; induction ls as [|l ls IH]; intros d Hd Hk H; simpl in Hk, H.
  - inversion H; subst; exact Hd.
  - apply andb_prop in Hk as [Hl Hk]. unfold line_keeps in Hl.
    destruct (String.eqb (strip l) EmptyString); [apply (IH d); auto|].
    simpl in Hl. destruct (parse_meta_line l) as [[k' v']|]; simpl in H; [|discriminate].
    assert (Hne : k <> k') by (intros ->; rewrite String.eqb_refl in Hl; discriminate).
    apply (IH (dict_set k' v' d)); [rewrite dict_get_set_other; assumption | exact Hk | exact H].
Qed.

(** ** The lines of a string *)

Lemma split_segments_nobreak (b : bool) (s l : string) :
  In l (split_segments b s) -> nobreak l = true.
Proof.
  revert l b; induction s as [|c s IH]; intros l b H; simpl in H.
  - destruct H as [<-|[]]. reflexivity.
  - destruct (b && Ascii.eqb c "010"%char); [eapply IH; eauto|].
    destruct (is_line_break c) eqn:Ec.
    + destruct H as [<-|H]; [reflexivity | eapply IH; eauto].
    + destruct (split_segments false s) as [|x xs] eqn:E.
      * destruct H as [<-|[]]. unfold nobreak. simpl. rewrite Ec. reflexivity.
      * destruct H as [<-|H].
        -- unfold nobreak. simpl. rewrite Ec. apply (IH x false). rewrite E. left; reflexivity.
        -- apply (IH l false). rewrite E. right; exact H.
Qed.

Lemma drop_trailing_empty_incl (l : list string) (x : string) :
  In x (drop_trailing_empty l) -> In x l.
Proof.
  unfold drop_trailing_empty. destruct (rev l) as [|y r] eqn:E; [auto|].
  destruct y; [|auto]. intros H. apply in_rev in H. apply in_rev. rewrite E. right; exact H.
Qed.

Lemma splitlines_nobreak (s l : string) : In l (splitlines s) -> nobreak l = true.
Proof.
  unfold splitlines. intros H. apply drop_trailing_empty_incl in H.
  eapply split_segments_nobreak; eauto.
Qed.

Lemma split_segments_cons (b : bool) (s : string) :
  exists x xs, split_segments b s = x :: xs.
Proof.
  revert b; induction s as [|c s IH]; intros b; simpl; [eauto|].
  destruct (b && Ascii.eqb c "010"%char); [apply IH|].
  destruct (is_line_break c); [eauto|].
  destruct (split_segments false s); eauto.
Qed.

Lemma split_segments_app (l s : string) :
  nobreak l = true ->
  split_segments false (l ++ s) =
  match split_segments false s with x :: xs => (l ++ x) :: xs | [] => [l] end.
Proof.
  unfold nobreak. induction l as [|c l IH]; intros H.
  - destruct (split_segments_cons false s) as [x [xs E]]. simpl. rewrite E. reflexivity.
  - simpl in H. apply andb_prop in H as [Hc H].
    apply negb_true_iff in Hc.
    change (String c l ++ s) with (String c (l ++ s)). cbn [split_segments andb].
    rewrite Hc, IH by exact H.
    destruct (split_segments false s); reflexivity.
Qed.

Lemma split_segments_join (ls : list string) :
  ls <> [] -> forallb nobreak ls = true -> split_segments false (join_lines ls) = ls.
Proof.
  induction ls as [|l ls IH]; intros Hne H; [congruence|].
  simpl in H. apply andb_prop in H as [Hl H].
  destruct ls as [|l2 ls].
  - simpl join_lines. rewrite <- (sapp_nil_r l) at 1.
    rewrite split_segments_app by exact Hl. simpl. f_equal. apply sapp_nil_r.
  - change (join_lines (l :: l2 :: ls)) with (l ++ nl ++ join_lines (l2 :: ls)).
    rewrite split_segments_app by exact Hl.
    change (nl ++ join_lines (l2 :: ls)) with (String "010"%char (join_lines (l2 :: ls))).
    cbn [split_segments andb].
    change (is_line_break "010"%char) with true. cbv iota beta.
    change (Ascii.eqb "010"%char "013"%char) with false.
    rewrite IH by (discriminate || exact H).
    rewrite sapp_nil_r. reflexivity.
Qed.

Lemma splitlines_join (ls : list string) :
  forallb (fun l => nobreak l && negb (String.eqb l EmptyString)) ls = true ->
  splitlines (join_lines ls) = ls.
Proof.
  intros H. destruct ls as [|l0 ls0] eqn:Els; [reflexivity|]. rewrite <- Els in *.
  assert (Hnb : forallb nobreak ls = true).
  { apply forallb_forall. intros x Hx. rewrite forallb_forall in H.
    specialize (H x Hx). apply andb_prop in H as [H _]. exact H. }
  unfold splitlines. rewrite split_segments_join by (congruence || exact Hnb).
  unfold drop_trailing_empty. destruct (rev ls) as [|y r] eqn:E; [reflexivity|].
  destruct y as [|a y]; [|reflexivity].
  exfalso. rewrite forallb_forall in H.
  assert (Hin : In EmptyString ls) by (apply in_rev; rewrite E; left; reflexivity).
  specialize (H _ Hin). simpl in H. rewrite ?andb_false_r in H. discriminate.
Qed.

(** ** What the metadata parser produces *)

Lemma parse_meta_line_inv (l : string) (kv : string * string) :
  nobreak l = true -> parse_meta_line l = Ok kv -> meta_entry_ok kv = true.
Proof.
  unfold parse_meta_line. intros Hl H.
  destruct (split_once "=" (strip l)) as [[a b]|] eqn:S; [|discriminate].
  inversion H; subst kv; clear H.
  apply split_once_spec in S as [E Ha].
  pose proof (strip_str_forall _ _ Hl) as Hs. unfold nobreak in *.
  rewrite E, str_forall_app in Hs. simpl in Hs.
  apply andb_prop in Hs as [Hsa Hsb].
  unfold meta_entry_ok. cbn [fst snd].
  rewrite !strip_idem, !String.eqb_refl, strip_has_char by exact Ha.
  unfold nobreak. rewrite !strip_str_forall by assumption. reflexivity.
Qed.

Lemma dict_set_in (k v : string) (d : dict) (kv : string * string) :
  In kv (dict_set k v d) -> kv = (k, v) \/ In kv d.
Proof.
  induction d as [|[k' v'] d IH]; simpl; [intros [<-|[]]; auto|].
  destruct (String.eqb k k'); simpl; intros [<-|H]; auto.
  destruct (IH H); auto.
Qed.

Lemma dict_set_keys (k v : string) (d : dict) (x : string) :
  In x (map fst (dict_set k v d)) -> x = k \/ In x (map fst d).
Proof.
  rewrite in_map_iff. intros [[x' y] [Hx Hin]]. simpl in Hx. subst x'.
  destruct (dict_set_in _ _ _ _ Hin) as [E|E].
  - inversion E; auto.
  - right. apply in_map_iff. exists (x, y); auto.
Qed.

Lemma dict_set_nodup (k v : string) (d : dict) :
  NoDup (map fst d) -> NoDup (map fst (dict_set k v d)).
Proof.
  induction d as [|[k' v'] d IH]; intros H; simpl.
  - constructor; [intros []|constructor].
  - inversion H as [|? ? Hn Hd]; subst.
    destruct (String.eqb k k') eqn:E.
    + apply String.eqb_eq in E; subst. simpl. constructor; assumption.
    + simpl. constructor; [|apply IH; exact Hd].
      intros Hin. apply dict_set_keys in Hin as [Hin|Hin]; [|contradiction].
      subst. rewrite String.eqb_refl in E. discriminate.
Qed.

Lemma dict_set_ok (k v : string) (d : dict) :
  forallb meta_entry_ok d = true -> meta_entry_ok (k, v) = true ->
  forallb meta_entry_ok (dict_set k v d) = true.
Proof.
  intros Hd Hkv. apply forallb_forall. intros kv Hin.
  destruct (dict_set_in _ _ _ _ Hin) as [->|H]; [exact Hkv|].
  rewrite forallb_forall in Hd. apply Hd, H.
Qed.

Lemma parse_meta_lines_inv (d m : dict) (ls : list string) :
  parse_meta_lines d ls = Ok m -> forallb nobreak ls = true ->
  forallb meta_entry_ok d = true -> NoDup (map fst d) ->
  forallb meta_entry_ok m = true /\ NoDup (map fst m).
Proof.
  revert d; induction ls as [|l ls IH]; intros d H Hls Hd Hn; simpl in H, Hls.
  - inversion H; subst; auto.
  - apply andb_prop in Hls as [Hl Hls].
    destruct (String.eqb (strip l) EmptyString); [apply (IH d); auto|].
    destruct (parse_meta_line l) as [[k v]|] eqn:P; simpl in H; [|discriminate].
    apply (IH _ H Hls).
    + apply dict_set_ok; [exact Hd|]. apply (parse_meta_line_inv l); assumption.
    + apply dict_set_nodup, Hn.
Qed.

Lemma strip_app_space (k : string) : strip (k ++ " ") = strip k.
Proof.
  unfold strip. rewrite lstrip_app. destruct (lstrip k) eqn:E; [reflexivity|].
  apply rstrip_app_space. reflexivity.
Qed.

Lemma meta_line_parse (kv : string * string) :
  meta_entry_ok kv = true ->
  String.eqb (strip (meta_line kv)) EmptyString = false /\ parse_meta_line (meta_line kv) = Ok kv.
Proof.
  destruct kv as [k v]. unfold meta_entry_ok, meta_line. cbn [fst snd]. intros H.
  repeat match goal with H : _ && _ = true |- _ => apply andb_prop in H as [? ?] end.
  replace (k ++ " = " ++ v) with ((k ++ " ") ++ "=" ++ " " ++ v)
    by (rewrite sapp_assoc; reflexivity).
  assert (Hk : has_char "=" (k ++ " ") = false).
  { rewrite has_char_app. match goal with H : negb (has_char _ _) = true |- _ =>
      apply negb_true_iff in H; rewrite H end. reflexivity. }
  split; [apply strip_kv_nonempty|].
  rewrite parse_meta_line_kv by exact Hk. rewrite strip_app_space.
  change (strip (" " ++ v)) with (strip v).
  repeat match goal with H : String.eqb _ _ = true |- _ => apply String.eqb_eq in H end.
  congruence.
Qed.

Lemma parse_meta_lines_serial (d m : dict) :
  forallb meta_entry_ok m = true ->
  parse_meta_lines d (map meta_line m)
  = Ok (fold_left (fun acc kv => dict_set (fst kv) (snd kv) acc) m d).
Proof.
  revert d; induction m as [|kv m IH]; intros d H; simpl in H |- *; [reflexivity|].
  apply andb_prop in H as [Hkv H].
  destruct (meta_line_parse kv Hkv) as [E1 E2]. rewrite E1, E2. simpl. apply IH, H.
Qed.

Lemma fold_dict_set_fresh (d m : dict) :
  NoDup (map fst (app d m)) ->
  fold_left (fun acc kv => dict_set (fst kv) (snd kv) acc) m d = app d m.
Proof.
  revert d; induction m as [|[k v] m IH]; intros d H; simpl; [symmetry; apply app_nil_r|].
  assert (Hfresh : dict_set k v d = app d [(k, v)]).
  { rewrite map_app in H. simpl in H. apply NoDup_remove_2 in H.
    assert (Hk : ~ In k (map fst d)) by (intros Hin; apply H, in_or_app; left; exact Hin).
    clear - Hk. induction d as [|[k' v'] d IHd]; [reflexivity|]. simpl in Hk |- *.
    destruct (String.eqb k k') eqn:E.
    - apply String.eqb_eq in E. subst. exfalso. apply Hk. left; reflexivity.
    - rewrite IHd by tauto. reflexivity. }
  rewrite Hfresh, IH; [rewrite <- app_assoc; reflexivity|].
  rewrite <- app_assoc. exact H.
Qed.

(** Whatever the parser produces is read back unchanged from its
    [key = value] lines. *)
Lemma parse_metadata_roundtrip (s : string) (m : dict) :
  parse_metadata [] s = Ok m -> parse_metadata [] (serialize_metadata m) = Ok m.
Proof.
  intros H. unfold parse_metadata in H.
  destruct (parse_meta_lines_inv _ _ _ H) as [Hok Hnd].
  - apply forallb_forall. intros l Hl. eapply splitlines_nobreak; eauto.
  - reflexivity.
  - constructor.
  - unfold parse_metadata, serialize_metadata. rewrite splitlines_join.
    + rewrite parse_meta_lines_serial by exact Hok.
      rewrite fold_dict_set_fresh by exact Hnd. reflexivity.
    + apply forallb_forall. intros l Hl. apply in_map_iff in Hl as [[k v] [<- Hin]].
      rewrite forallb_forall in Hok. specialize (Hok _ Hin).
      unfold meta_entry_ok in Hok. cbn [fst snd] in Hok.
      repeat match goal with H : _ && _ = true |- _ => apply andb_prop in H as [? ?] end.
      unfold meta_line, nobreak. cbn [fst snd].
      rewrite !str_forall_app. unfold nobreak in *.
      repeat match goal with H : str_forall _ _ = true |- _ => rewrite H; clear H end.
      destruct k; reflexivity.
Qed.

(** ** Unknown languages *)

Lemma highlight_unknown_lexer {Lexer : Type} (gl : string -> option Lexer)
  (hl : string -> Lexer -> string) (segs : list (string * string * string)) (tail : string) :
  forallb segment_ok segs = true ->
  existsb (fun seg => match gl (snd (fst seg)) with None => true | Some _ => false end) segs
  = true ->
  exists lang, gl lang = None /\ In lang (map (fun seg => snd (fst seg)) segs) /\
    highlight_code_blocks gl hl (page_of segs tail) = Raise (ClassNotFound lang).
Proof.
  induction segs as [|[[t lang] code] segs IH]; intros Hok Hex; simpl in Hok, Hex;
    [discriminate|].
  apply andb_prop in Hok as [Hseg Hok].
  destruct (segment_ok_spec _ _ _ Hseg) as (H1 & H2 & H3 & H4 & H5).
  cbn [page_of]. rewrite highlight_code_blocks_block by assumption.
  unfold hilite_code. destruct (gl lang) as [lx|] eqn:G.
  - destruct (IH Hok Hex) as (lang' & G' & Hin & Hr).
    exists lang'. split; [exact G'|]. split; [right; exact Hin|].
    simpl. rewrite Hr. reflexivity.
  - exists lang. split; [exact G|]. split; [left; reflexivity | reflexivity].
Qed.

Lemma move_static_go_content {Image : Type} (io : string -> option Image)
  (sv : Image -> string) (names : list string) (outs : list (string * string))
  (n : string) (img : Image) :
  move_static_go io sv names = Ok outs -> In n names -> endswith ".png" n = true ->
  io ("./static/" ++ n) = Some img -> In ("./build/" ++ n, sv img) outs.
Proof.
  revert outs; induction names as [|m names IH]; intros outs H Hin Hp Hio;
    [destruct Hin|]. cbn [move_static_go] in H.
  destruct Hin as [<-|Hin].
  - rewrite Hp, Hio in H.
    destruct (move_static_go io sv names); simpl in H; [|discriminate].
    inversion H; subst. left; reflexivity.
  - destruct (endswith ".png" m); [|apply IH; assumption].
    destruct (io ("./static/" ++ m)); [|discriminate].
    destruct (move_static_go io sv names) as [r|]; simpl in H; [|discriminate].
    inversion H; subst. right. apply IH; auto.
Qed.

Lemma highlight_code_blocks_single {Lexer : Type} (gl : string -> option Lexer)
  (hl : string -> Lexer -> string) (lang code : string) :
  lang <> EmptyString -> str_forall is_lower lang = true ->
  code <> EmptyString -> find code_close code = None ->
  highlight_code_blocks gl hl (code_block lang code) = hilite_code gl hl lang code.
Proof.
  intros H1 H2 H3 H4.
  pose proof (highlight_code_blocks_block gl hl EmptyString lang code EmptyString
                eq_refl H1 H2 H3 H4) as H.
  rewrite sapp_nil_r in H. cbn [append] in H. rewrite H.
  change (highlight_code_blocks gl hl EmptyString) with (@Ok string EmptyString).
  destruct (hilite_code gl hl lang code); simpl; rewrite ?sapp_nil_r; reflexivity.
Qed.

(** * The claims *)

(** C1: the per-post pipeline converts the Markdown, highlights the code
    blocks, then cuts off the metadata comment and substitutes the
    templates ([process_post]): highlighting comes before the comment is
    stripped.  It gives the result of the order convert, strip, highlight,
    substitute ([process_post_spec_order]), or both fail, when the
    converted HTML is [meta ++ "-->" ++ body], the first ["-->"] ends
    [meta], and no code block opens before the end of the comment. *)
Theorem C1_highlight_then_strip {Lexer : Type} (gl : string -> option Lexer)
  (hl : string -> Lexer -> string) (conv : string -> string)
  (spt ht : string) (cvars : list string) (filename source meta body : string) :
  conv source = meta ++ "-->" ++ body ->
  find "-->" (meta ++ "-->") = Some (String.length meta) ->
  match find code_open (meta ++ "-->" ++ body) with
  | Some j => String.length meta + 3 <= j
  | None => True
  end ->
  match process_post gl hl conv spt ht cvars filename source,
        process_post_spec_order gl hl conv spt ht cvars filename source with
  | Ok a, Ok b => a = b
  | Raise _, Raise _ => True
  | _, _ => False
  end.
Proof.
  intros Hc Hf Ho. unfold process_post, process_post_spec_order. rewrite Hc.
  rewrite (highlight_after_comment gl hl meta body Ho).
  rewrite (extract_metadata_split filename meta body Hf).
  destruct (highlight_code_blocks gl hl body) as [hb|e] eqn:Hb; cbn [fmap bind].
  - rewrite (extract_metadata_split filename meta hb Hf).
    destruct (parse_metadata _ _) as [pm|e]; cbn [fmap bind ex_body];
      [rewrite Hb|]; reflexivity.
  - destruct (parse_metadata _ _) as [pm|e']; cbn [fmap bind ex_body];
      [rewrite Hb|]; exact I.
Qed.

(** C2: the comment is found with [out_html.find("-->")] anywhere in the
    page, not only at its start.  A post whose HTML has no metadata comment
    but an HTML comment further down, here ["<p>Hello</p>\n<!-- note -->"],
    has the text from index 4 up to that ["-->"] parsed as metadata; its
    line ["Hello</p>"] has no ["="], and the build stops with [ValueError]
    instead of generating the page. *)
Theorem C2_later_comment_aborts {Lexer : Type} (gl : string -> option Lexer)
  (hl : string -> Lexer -> string) (conv : string -> string)
  (spt ht : string) (cvars : list string) (filename source : string) :
  conv source = "<p>Hello</p>" ++ nl ++ "<!-- note -->" ->
  process_post gl hl conv spt ht cvars filename source = Raise ValueError.
Proof. intros Hc. unfold process_post. rewrite Hc. reflexivity. Qed.

(** C6: [hilite_code] decodes ["&amp;"] first, so an entity written
    literally in the code is decoded twice: the code ["&lt;"] is escaped by
    Python-Markdown as ["&amp;lt;"] and handed to the lexer as ["<"].  The
    escapes of the renderer alone are undone: a block of [<html>], which
    the renderer escapes to ["&lt;html&gt;"], is lexed as ["<html>"]. *)
Theorem C6_entity_decoded_twice {Lexer : Type} (gl : string -> option Lexer)
  (hl : string -> Lexer -> string) (lx : Lexer) :
  gl "python" = Some lx ->
  markdown_escape "&lt;" = "&amp;lt;" /\
  highlight_code_blocks gl hl (code_block "python" (markdown_escape "&lt;")) = Ok (hl "<" lx) /\
  markdown_escape "<html>" = "&lt;html&gt;" /\
  highlight_code_blocks gl hl (code_block "python" (markdown_escape "<html>"))
  = Ok (hl "<html>" lx).
Proof.
  intros G.
  rewrite !highlight_code_blocks_single
    by (discriminate || reflexivity || (vm_compute; reflexivity)).
  unfold hilite_code. rewrite G. repeat split.
Qed.

(** C7: for a page of text segments each followed by a fenced block that
    the extraction regex matches on its own (a language tag of letters
    [a-z], non-empty code without ["</code></pre>"], no block opening in
    the text before the block), a block whose tag names no lexer makes
    [highlight_code_blocks] raise [ClassNotFound]: the post, and the build
    loop over the posts, abort with no plain-text fallback. *)
Theorem C7_unknown_language_aborts {Lexer : Type} (gl : string -> option Lexer)
  (hl : string -> Lexer -> string) (conv : string -> string)
  (spt ht : string) (cvars : list string) (name source : string)
  (files : list (string * string)) (posts_metadata : list dict)
  (segs : list (string * string * string)) (tail : string) :
  forallb segment_ok segs = true ->
  existsb (fun seg => match gl (snd (fst seg)) with None => true | Some _ => false end) segs
  = true ->
  conv source = page_of segs tail ->
  exists lang, gl lang = None /\ In lang (map (fun seg => snd (fst seg)) segs) /\
    highlight_code_blocks gl hl (page_of segs tail) = Raise (ClassNotFound lang) /\
    process_post gl hl conv spt ht cvars (slice_to name (-3)) source
    = Raise (ClassNotFound lang) /\
    build_post_pages gl hl conv spt ht cvars ((name, source) :: files) posts_metadata
    = Raise (ClassNotFound lang).
Proof.
  intros Hok Hex Hc.
  destruct (highlight_unknown_lexer gl hl segs tail Hok Hex) as (lang & G & Hin & Hr).
  assert (Hp : process_post gl hl conv spt ht cvars (slice_to name (-3)) source
               = Raise (ClassNotFound lang)).
  { unfold process_post. rewrite Hc, Hr. reflexivity. }
  exists lang. repeat split; try assumption.
  cbn [build_post_pages]. rewrite Hp. reflexivity.
Qed.

(** C4: for a name [X] found by the scan of the templates, a block
    [{{exists:X}}A{{exists:X:end}}] with a non-empty [A] (multiline or not)
    holding no end marker of [X], reached with no opening marker of [X]
    before it, is replaced by [A] when [X] is a key of the post's metadata
    and by the empty string otherwise, and the scan goes on after the block;
    the loop of line 114 applies this for each name in turn.  A block with
    an empty [A] is not matched. *)
Theorem C4_conditional_block (templates : list string) (X : string) (md : dict)
  (cvars : list string) (pre A rest page : string) :
  In X (scan_conditional_variables templates) -> A <> EmptyString ->
  find (exists_close X) A = None ->
  find (exists_open X) (pre ++ exists_open X) = Some (String.length pre) ->
  conditional_sub X (dict_mem X md) (pre ++ exists_open X ++ A ++ exists_close X ++ rest)
  = pre ++ (if dict_mem X md then A else EmptyString)
    ++ conditional_sub X (dict_mem X md) rest /\
  render_conditionals (X :: cvars) md page
  = render_conditionals cvars md (conditional_sub X (dict_mem X md) page).
Proof.
  intros HX HA HF Hpre. split; [|reflexivity].
  apply conditional_sub_block; [eapply scanned_no_brace; eauto | assumption..].
Qed.

(** C3: [build_posts] lists, in order, the entry of each post whose
    [draft] is the string ["false"], and only those; with the two example
    posts (draft ["false"] dated 2023-01-01T10:00:00+00:00, draft ["true"]
    dated 2023-02-01T10:00:00+00:00) the list holds one [<li>], for the
    first post, showing 2023-01-01. *)
Theorem C3_listing_non_drafts (ps : list dict) (out : string) :
  (build_posts ps = Ok out ->
   out = "<ul>" ++ concat_all (map listed_entry (filter is_listed ps)) ++ "</ul>") /\
  build_posts
    [[("filename", "a"); ("title", "A"); ("date", "2023-01-01T10:00:00+00:00");
      ("draft", "false")];
     [("filename", "b"); ("title", "B"); ("date", "2023-02-01T10:00:00+00:00");
      ("draft", "true")]]
  = Ok ("<ul>" ++ post_entry "2023-01-01" "/posts/a" "A" ++ "</ul>") /\
  count_sub "<li>" ("<ul>" ++ post_entry "2023-01-01" "/posts/a" "A" ++ "</ul>") = 1.
Proof.
  split; [|split; vm_compute; reflexivity].
  unfold build_posts. intros H.
  destruct (build_posts_go ps) as [body|] eqn:E; simpl in H; [|discriminate].
  inversion H; subst. rewrite (build_posts_go_ok ps body E). reflexivity.
Qed.

(** C8: the files written are, in order, [./build/<name>] for each name
    listed by [glob] (names starting with a dot are not listed) that ends
    with [.png], and nothing else; each holds the re-encoded image.  When
    every such image opens, the loop succeeds. *)
Theorem C8_png_only {Image : Type} (io : string -> option Image) (sv : Image -> string)
  (entries : list string) :
  (forall outs, move_static_assets io sv entries = Ok outs ->
     map fst outs = map (fun n => "./build/" ++ n) (filter (endswith ".png") (glob_star entries))
     /\ forall n img, In n (glob_star entries) -> endswith ".png" n = true ->
          io ("./static/" ++ n) = Some img -> In ("./build/" ++ n, sv img) outs) /\
  ((forall n, In n (glob_star entries) -> endswith ".png" n = true ->
     io ("./static/" ++ n) <> None) ->
   exists outs, move_static_assets io sv entries = Ok outs).
Proof.
  unfold move_static_assets. split.
  - intros outs H. split; [apply (move_static_go_ok io sv _ _ H)|].
    intros n img Hin Hp Hio. apply (move_static_go_content io sv _ _ n img H Hin Hp Hio).
  - apply move_static_go_total.
Qed.

(** C9: the value put in for [{{date}}] is [value[:value.find("T")]]: the
    part of the value before its first ["T"], or, when there is no ["T"],
    the value without its last character; the replacement of [{{date}}]
    happens at the place of the [date] key in the loop over the metadata. *)
Theorem C9_date_value (v : string) (md1 md2 : dict) (html : string) :
  meta_value "date" v =
  match find "T" v with
  | Some i => substring 0 i v
  | None => substring 0 (String.length v - 1) v
  end /\
  substitute_metadata (app md1 (("date", v) :: md2)) html
  = substitute_metadata md2 (replace (substitute_metadata md1 html) "{{date}}"
                               (meta_value "date" v)).
Proof.
  split; [apply meta_value_date|].
  rewrite substitute_metadata_app. reflexivity.
Qed.

(** C10: [build_posts] aborts on any post that lacks a key it reads or
    whose date does not parse.  For the first such post (after posts it
    gets through), with a [filename]: no [title] raises [KeyError "title"];
    otherwise no [date] raises [KeyError "date"]; otherwise a date that
    [strptime] rejects raises [ValueError], whatever its [draft]; otherwise
    no [draft] raises [KeyError "draft"]. *)
Theorem C10_first_bad_post (pre rest : list dict) (p : dict) (f : string) :
  forallb post_ok pre = true -> dict_get "filename" p = Some f ->
  (dict_get "title" p = None ->
   build_posts (app pre (p :: rest)) = Raise (KeyError "title")) /\
  (forall t, dict_get "title" p = Some t -> dict_get "date" p = None ->
   build_posts (app pre (p :: rest)) = Raise (KeyError "date")) /\
  (forall t d, dict_get "title" p = Some t -> dict_get "date" p = Some d ->
   strptime_date d = Raise ValueError ->
   build_posts (app pre (p :: rest)) = Raise ValueError) /\
  (forall t d ds, dict_get "title" p = Some t -> dict_get "date" p = Some d ->
   strptime_date d = Ok ds -> dict_get "draft" p = None ->
   build_posts (app pre (p :: rest)) = Raise (KeyError "draft")) /\
  (forall ps, existsb (fun q => negb (post_ok q)) ps = true ->
   exists e, build_posts ps = Raise e).
Proof.
  intros Hpre Hf.
  assert (K : forall e, build_posts_go (p :: rest) = Raise e ->
                        build_posts (app pre (p :: rest)) = Raise e).
  { intros e He. unfold build_posts.
    rewrite (build_posts_go_raise_after pre (p :: rest) e Hpre He). reflexivity. }
  repeat split.
  - intros Ht. apply K. cbn [build_posts_go]. unfold dict_getitem. rewrite Hf, Ht.
    reflexivity.
  - intros t Ht Hd. apply K. cbn [build_posts_go]. unfold dict_getitem.
    rewrite Hf, Ht, Hd. reflexivity.
  - intros t d Ht Hd Hs. apply K. cbn [build_posts_go]. unfold dict_getitem.
    rewrite Hf, Ht, Hd. cbn [bind]. rewrite Hs. reflexivity.
  - intros t d ds Ht Hd Hs Hdr. apply K. cbn [build_posts_go]. unfold dict_getitem.
    rewrite Hf, Ht, Hd. cbn [bind]. rewrite Hs, Hdr. reflexivity.
  - intros ps Hps. destruct (build_posts_go_bad ps Hps) as [e He].
    exists e. unfold build_posts. rewrite He. reflexivity.
Qed.

(** C5: a line [k0 = v0] whose key part has no ["="] is parsed as
    [(strip k0, strip v0)], the value keeping any further ["="]; when the
    key comes back on a later line, the later value wins, and the entry
    stays when the later lines are blank or set other keys; a mapping the
    parser produced, written back as [key = value] lines, is parsed back to
    itself. *)
Theorem C5_metadata_lines (k0 v0 : string) (d m : dict) (ls1 ls2 : list string)
  (s : string) (m' : dict) :
  (has_char "=" k0 = false ->
   parse_meta_line (k0 ++ "=" ++ v0) = Ok (strip k0, strip v0)) /\
  (has_char "=" k0 = false -> forallb (line_keeps (strip k0)) ls2 = true ->
   parse_meta_lines d (app ls1 ((k0 ++ "=" ++ v0) :: ls2)) = Ok m ->
   dict_get (strip k0) m = Some (strip v0)) /\
  (parse_metadata [] s = Ok m' -> parse_metadata [] (serialize_metadata m') = Ok m').
Proof.
  split; [apply parse_meta_line_kv|]. split; [|apply parse_metadata_roundtrip].
  intros Hk Hls H. rewrite parse_meta_lines_app in H.
  destruct (parse_meta_lines d ls1) as [d1|]; cbn [bind] in H; [|discriminate].
  cbn [parse_meta_lines] in H. rewrite strip_kv_nonempty, parse_meta_line_kv in H by exact Hk.
  cbn [bind fst snd] in H.
  apply (parse_meta_lines_keep _ _ _ _ _ (dict_get_set_same _ _ _) Hls H).
Qed.

(** ** Instances *)

(** C1 at a post whose comment holds no code block. *)
Lemma C1_witness :
  (fun _ : string => "<!--" ++ nl ++ "title = A" ++ nl ++ "-->" ++ "<p>hi</p>"
                     ++ code_block "python" "x") "post"
  = ("<!--" ++ nl ++ "title = A" ++ nl) ++ "-->" ++ ("<p>hi</p>" ++ code_block "python" "x") /\
  find "-->" (("<!--" ++ nl ++ "title = A" ++ nl) ++ "-->")
  = Some (String.length ("<!--" ++ nl ++ "title = A" ++ nl)) /\
  match process_post (fun _ => Some tt) (fun _ _ => "H")
          (fun _ => "<!--" ++ nl ++ "title = A" ++ nl ++ "-->" ++ "<p>hi</p>"
                    ++ code_block "python" "x")
          "{{CONTENT}}" "<h1>{{title}}</h1>{{CONTENT}}" [] "p" "post",
        process_post_spec_order (fun _ => Some tt) (fun _ _ => "H")
          (fun _ => "<!--" ++ nl ++ "title = A" ++ nl ++ "-->" ++ "<p>hi</p>"
                    ++ code_block "python" "x")
          "{{CONTENT}}" "<h1>{{title}}</h1>{{CONTENT}}" [] "p" "post" with
  | Ok a, Ok b => a = b
  | Raise _, Raise _ => True
  | _, _ => False
  end.
Proof.
  split; [reflexivity|]. split; [vm_compute; reflexivity|].
  apply (C1_highlight_then_strip (fun _ : string => Some tt) (fun _ _ => "H")
           (fun _ => "<!--" ++ nl ++ "title = A" ++ nl ++ "-->" ++ "<p>hi</p>"
                     ++ code_block "python" "x")
           "{{CONTENT}}" "<h1>{{title}}</h1>{{CONTENT}}" [] "p" "post"
           ("<!--" ++ nl ++ "title = A" ++ nl) ("<p>hi</p>" ++ code_block "python" "x")).
  - reflexivity.
  - vm_compute. reflexivity.
  - vm_compute. lia.
Defined.

(** A code block inside the comment: the code puts the highlighted block in
    the metadata, the other order the raw one. *)
Lemma C1_counterexample :
  process_post (fun _ : string => Some tt) (fun _ _ => "H")
    (fun _ => "<!--" ++ nl ++ "title = " ++ code_block "python" "x" ++ nl ++ "-->" ++ "body")
    "{{CONTENT}}" "{{CONTENT}}" [] "p" "post"
  <> process_post_spec_order (fun _ : string => Some tt) (fun _ _ => "H")
    (fun _ => "<!--" ++ nl ++ "title = " ++ code_block "python" "x" ++ nl ++ "-->" ++ "body")
    "{{CONTENT}}" "{{CONTENT}}" [] "p" "post".
Proof. vm_compute. discriminate. Qed.

Lemma C2_witness :
  (fun _ : string => "<p>Hello</p>" ++ nl ++ "<!-- note -->") "post"
  = "<p>Hello</p>" ++ nl ++ "<!-- note -->" /\
  process_post (fun _ : string => @None unit) (fun _ _ => "")
    (fun _ => "<p>Hello</p>" ++ nl ++ "<!-- note -->")
    "{{CONTENT}}" "{{CONTENT}}" [] "hello" "post" = Raise ValueError.
Proof.
  split; [reflexivity|].
  apply (C2_later_comment_aborts (fun _ : string => @None unit) (fun _ _ => "")
           (fun _ => "<p>Hello</p>" ++ nl ++ "<!-- note -->")).
  reflexivity.
Defined.

Lemma C3_witness :
  (build_posts [[("filename", "a"); ("title", "A"); ("date", "2023-01-01T10:00:00+00:00");
                 ("draft", "false")];
                [("filename", "b"); ("title", "B"); ("date", "2023-02-01T10:00:00+00:00");
                 ("draft", "true")]]
   = Ok ("<ul>" ++ post_entry "2023-01-01" "/posts/a" "A" ++ "</ul>") /\
   "<ul>" ++ post_entry "2023-01-01" "/posts/a" "A" ++ "</ul>"
   = "<ul>" ++ concat_all (map listed_entry (filter is_listed
       [[("filename", "a"); ("title", "A"); ("date", "2023-01-01T10:00:00+00:00");
         ("draft", "false")];
        [("filename", "b"); ("title", "B"); ("date", "2023-02-01T10:00:00+00:00");
         ("draft", "true")]])) ++ "</ul>").
Proof.
  split; [vm_compute; reflexivity|].
  apply (proj1 (C3_listing_non_drafts
    [[("filename", "a"); ("title", "A"); ("date", "2023-01-01T10:00:00+00:00");
      ("draft", "false")];
     [("filename", "b"); ("title", "B"); ("date", "2023-02-01T10:00:00+00:00");
      ("draft", "true")]]
    ("<ul>" ++ post_entry "2023-01-01" "/posts/a" "A" ++ "</ul>"))).
  vm_compute. reflexivity.
Defined.

Lemma C4_witness :
  In "x" (scan_conditional_variables ["<div>{{exists:x}}{{x}}{{exists:x:end}}</div>"]) /\
  "a" ++ nl ++ "b" <> EmptyString /\
  find (exists_close "x") ("a" ++ nl ++ "b") = None /\
  find (exists_open "x") ("<p>" ++ exists_open "x") = Some 3 /\
  conditional_sub "x" (dict_mem "x" [("x", "1")])
    ("<p>" ++ exists_open "x" ++ ("a" ++ nl ++ "b") ++ exists_close "x" ++ "</p>")
  = "<p>" ++ (if dict_mem "x" [("x", "1")] then "a" ++ nl ++ "b" else EmptyString)
    ++ conditional_sub "x" (dict_mem "x" [("x", "1")]) "</p>".
Proof.
  split; [vm_compute; auto|]. split; [discriminate|].
  split; [vm_compute; reflexivity|]. split; [vm_compute; reflexivity|].
  apply (proj1 (C4_conditional_block ["<div>{{exists:x}}{{x}}{{exists:x:end}}</div>"]
                  "x" [("x", "1")] [] "<p>" ("a" ++ nl ++ "b") "</p>" EmptyString
                  ltac:(vm_compute; auto) ltac:(discriminate)
                  ltac:(vm_compute; reflexivity) ltac:(vm_compute; reflexivity))).
Defined.

(** A block with an empty [A] of a scanned name is not replaced as a
    block: alone, it is left as it is whether or not the name is a key;
    followed by another block of the same name, the lazy match runs from
    its opening marker to the later end marker. *)
Lemma C4_counterexample :
  In "x" (scan_conditional_variables ["{{exists:x}}<b>x</b>{{exists:x:end}}"]) /\
  conditional_sub "x" true (exists_open "x" ++ exists_close "x")
  = exists_open "x" ++ exists_close "x" /\
  conditional_sub "x" false (exists_open "x" ++ exists_close "x")
  = exists_open "x" ++ exists_close "x" /\
  conditional_sub "x" true
    (exists_open "x" ++ exists_close "x" ++ "<p>" ++ exists_open "x" ++ "hi"
     ++ exists_close "x" ++ "</p>")
  = exists_close "x" ++ "<p>" ++ exists_open "x" ++ "hi" ++ "</p>" /\
  conditional_sub "x" false
    (exists_open "x" ++ exists_close "x" ++ "<p>" ++ exists_open "x" ++ "hi"
     ++ exists_close "x" ++ "</p>")
  = "</p>".
Proof. vm_compute. auto. Qed.

(** A key given twice: the first line's entry is not in the mapping. *)
Lemma C5_counterexample :
  parse_metadata [] ("a = 1" ++ nl ++ "a = 2") = Ok [("a", "2")].
Proof. vm_compute. reflexivity. Qed.

Lemma C5_witness :
  has_char "=" " key " = false /\
  forallb (line_keeps (strip " key ")) ["other = 3"; " "] = true /\
  parse_meta_lines [] (app ["key = 0"] ((" key " ++ "=" ++ " a=b ") :: ["other = 3"; " "]))
  = Ok [("key", "a=b"); ("other", "3")] /\
  parse_metadata [] ("x = 1" ++ nl ++ " y= 2 " ++ nl) = Ok [("x", "1"); ("y", "2")] /\
  parse_meta_line (" key " ++ "=" ++ " a=b ") = Ok (strip " key ", strip " a=b ") /\
  dict_get (strip " key ") [("key", "a=b"); ("other", "3")] = Some (strip " a=b ") /\
  parse_metadata [] (serialize_metadata [("x", "1"); ("y", "2")]) = Ok [("x", "1"); ("y", "2")].
Proof.
  do 4 (split; [vm_compute; reflexivity|]).
  destruct (C5_metadata_lines " key " " a=b " [] [("key", "a=b"); ("other", "3")]
              ["key = 0"] ["other = 3"; " "] ("x = 1" ++ nl ++ " y= 2 " ++ nl)
              [("x", "1"); ("y", "2")]) as (H1 & H2 & H3).
  split; [apply H1; vm_compute; reflexivity|].
  split; [apply H2; vm_compute; reflexivity|].
  apply H3. vm_compute. reflexivity.
Defined.

Lemma C6_witness :
  (fun s : string => if String.eqb s "python" then Some tt else None) "python" = Some tt /\
  markdown_escape "&lt;" = "&amp;lt;" /\
  highlight_code_blocks (fun s : string => if String.eqb s "python" then Some tt else None)
    (fun code _ => code) (code_block "python" (markdown_escape "&lt;")) = Ok "<".
Proof.
  split; [reflexivity|].
  destruct (C6_entity_decoded_twice
              (fun s : string => if String.eqb s "python" then Some tt else None)
              (fun code _ => code) tt eq_refl) as (H1 & H2 & _).
  split; [exact H1 | exact H2].
Defined.

Lemma C7_witness :
  forallb segment_ok [("<p>a</p>", "python", "x = 1"); (nl, "nosuchlang", "y")] = true /\
  existsb (fun seg => match (fun s : string => if String.eqb s "python" then Some tt else None)
                              (snd (fst seg)) with None => true | Some _ => false end)
    [("<p>a</p>", "python", "x = 1"); (nl, "nosuchlang", "y")] = true /\
  exists lang, (fun s : string => if String.eqb s "python" then Some tt else None) lang = None /\
    In lang (map (fun seg => snd (fst seg))
                 [("<p>a</p>", "python", "x = 1"); (nl, "nosuchlang", "y")]) /\
    highlight_code_blocks (fun s : string => if String.eqb s "python" then Some tt else None)
      (fun code _ => code)
      (page_of [("<p>a</p>", "python", "x = 1"); (nl, "nosuchlang", "y")] "<p>end</p>")
    = Raise (ClassNotFound lang) /\
    process_post (fun s : string => if String.eqb s "python" then Some tt else None)
      (fun code _ => code)
      (fun _ => page_of [("<p>a</p>", "python", "x = 1"); (nl, "nosuchlang", "y")]
                        "<p>end</p>")
      "{{CONTENT}}" "{{CONTENT}}" [] (slice_to "post.md" (-3)) "source"
    = Raise (ClassNotFound lang) /\
    build_post_pages (fun s : string => if String.eqb s "python" then Some tt else None)
      (fun code _ => code)
      (fun _ => page_of [("<p>a</p>", "python", "x = 1"); (nl, "nosuchlang", "y")]
                        "<p>end</p>")
      "{{CONTENT}}" "{{CONTENT}}" [] [("post.md", "source")] []
    = Raise (ClassNotFound lang).
Proof.
  split; [vm_compute; reflexivity|]. split; [vm_compute; reflexivity|].
  apply (C7_unknown_language_aborts
           (fun s : string => if String.eqb s "python" then Some tt else None)
           (fun code _ => code)
           (fun _ => page_of [("<p>a</p>", "python", "x = 1"); (nl, "nosuchlang", "y")]
                             "<p>end</p>")
           "{{CONTENT}}" "{{CONTENT}}" [] "post.md" "source" [] []
           [("<p>a</p>", "python", "x = 1"); (nl, "nosuchlang", "y")] "<p>end</p>").
  - vm_compute. reflexivity.
  - vm_compute. reflexivity.
  - reflexivity.
Defined.

(** Blocks whose tag names no lexer yet raise nothing: a tag with a
    character outside [[a-z]] ([foo_bar]) and an empty block are not
    matched and stay as they are, and an empty [python] block makes the
    lazy match run on over the block after it, whose tag is then never
    looked up. *)
Lemma C7_counterexample :
  (fun s : string => if String.eqb s "python" then Some tt else None) "foo_bar" = None /\
  highlight_code_blocks (fun s : string => if String.eqb s "python" then Some tt else None)
    (fun code _ => "<hl>" ++ code) (code_block "foo_bar" "y")
  = Ok (code_block "foo_bar" "y") /\
  (fun s : string => if String.eqb s "python" then Some tt else None) "nosuch" = None /\
  highlight_code_blocks (fun s : string => if String.eqb s "python" then Some tt else None)
    (fun code _ => "<hl>" ++ code) (code_block "nosuch" "")
  = Ok (code_block "nosuch" "") /\
  highlight_code_blocks (fun s : string => if String.eqb s "python" then Some tt else None)
    (fun code _ => "<hl>" ++ code)
    (code_block "python" "" ++ "<p>x</p>" ++ code_block "nosuch" "y")
  = Ok ("<hl>" ++ code_close ++ "<p>x</p>" ++ code_open ++ "nosuch" ++ code_lang_end ++ "y").
Proof. vm_compute. auto. Qed.

Lemma C8_witness :
  move_static_assets (fun _ : string => Some tt) (fun _ => "img") ["a.png"; "b.txt"; "c.png"]
  = Ok [("./build/a.png", "img"); ("./build/c.png", "img")] /\
  map fst [("./build/a.png", "img"); ("./build/c.png", "img")]
  = map (fun n => "./build/" ++ n) (filter (endswith ".png") (glob_star ["a.png"; "b.txt"; "c.png"]))
  /\ exists outs, move_static_assets (fun _ : string => Some tt) (fun _ => "img")
                    ["a.png"; "b.txt"; "c.png"] = Ok outs.
Proof.
  destruct (C8_png_only (fun _ : string => Some tt) (fun _ => "img") ["a.png"; "b.txt"; "c.png"])
    as [H1 H2].
  assert (E : move_static_assets (fun _ : string => Some tt) (fun _ => "img")
                ["a.png"; "b.txt"; "c.png"]
              = Ok [("./build/a.png", "img"); ("./build/c.png", "img")])
    by (vm_compute; reflexivity).
  split; [exact E|]. split; [apply (proj1 (H1 _ E))|].
  apply H2. intros n _ _. discriminate.
Defined.

(** A dotfile is not listed by [glob], so a PNG named [.logo.png] gets no
    output. *)
Lemma C8_counterexample :
  endswith ".png" ".logo.png" = true /\
  move_static_assets (fun _ : string => Some tt) (fun _ => "img") [".logo.png"] = Ok [].
Proof. vm_compute. auto. Qed.

Lemma C10_witness :
  forallb post_ok [[("filename", "a"); ("title", "A"); ("date", "2023-01-01T10:00:00+00:00");
                    ("draft", "false")]] = true /\
  dict_get "filename" [("filename", "b"); ("title", "B"); ("date", "2023-02-30T10:00:00+00:00");
                       ("draft", "true")] = Some "b" /\
  strptime_date "2023-02-30T10:00:00+00:00" = Raise ValueError /\
  build_posts [[("filename", "a"); ("title", "A"); ("date", "2023-01-01T10:00:00+00:00");
                ("draft", "false")];
               [("filename", "b"); ("title", "B"); ("date", "2023-02-30T10:00:00+00:00");
                ("draft", "true")]]
  = Raise ValueError.
Proof.
  split; [vm_compute; reflexivity|]. split; [reflexivity|].
  split; [vm_compute; reflexivity|].
  destruct (C10_first_bad_post
              [[("filename", "a"); ("title", "A"); ("date", "2023-01-01T10:00:00+00:00");
                ("draft", "false")]] []
              [("filename", "b"); ("title", "B"); ("date", "2023-02-30T10:00:00+00:00");
               ("draft", "true")] "b" ltac:(vm_compute; reflexivity) eq_refl)
    as (_ & _ & H3 & _).
  apply (H3 "B" "2023-02-30T10:00:00+00:00"); [reflexivity | reflexivity |].
  vm_compute. reflexivity.
Defined.

(** A post with a date that does not parse and no [draft] key: the date is
    parsed first, so the build stops with [ValueError], not [KeyError]. *)
Lemma C10_counterexample :
  build_posts [[("filename", "a"); ("title", "A"); ("date", "yesterday")]] = Raise ValueError.
Proof. vm_compute. reflexivity. Qed.

(** * Further properties of the build script *)

(** ** Helpers *)

Lemma build_projects_go_all_ok (ps : list dict) :
  forallb project_ok ps = true -> build_projects_go ps = Ok (concat_all (map project_entry ps)).
Proof.
  induction ps as [|p ps IH]; intros H; [reflexivity|]. simpl in H.
  apply andb_prop in H as [Hp H]. unfold project_ok, dict_mem in Hp.
  change (concat_all (map project_entry (p :: ps)))
    with (project_entry p ++ concat_all (map project_entry ps)).
  cbn [build_projects_go]. rewrite IH by exact H. unfold dict_getitem, project_entry.
  destruct (dict_get "title" p) as [t|]; [|discriminate].
  destruct (dict_get "url" p) as [u|]; [|apply andb_prop in Hp as [_ Hp]; discriminate].
  cbn [bind]. rewrite !sapp_assoc. reflexivity.
Qed.

Lemma build_projects_go_raise_after (pre rest : list dict) (e : exn) :
  forallb project_ok pre = true -> build_projects_go rest = Raise e ->
  build_projects_go (app pre rest) = Raise e.
Proof.
  induction pre as [|p pre IH]; intros Hok Hr; [exact Hr|]. simpl in Hok.
  apply andb_prop in Hok as [Hp Hok]. unfold project_ok, dict_mem in Hp.
  cbn [app build_projects_go]. unfold dict_getitem.
  destruct (dict_get "title" p) as [t|]; [|discriminate].
  destruct (dict_get "url" p) as [u|]; [|apply andb_prop in Hp as [_ Hp]; discriminate].
  cbn [bind]. rewrite IH by assumption. reflexivity.
Qed.

Lemma build_projects_ALL_PROJECTS :
  exists out, build_projects ALL_PROJECTS = Ok out.
Proof. eexists. vm_compute. reflexivity. Qed.

Lemma highlight_code_blocks_none {Lexer : Type} (gl : string -> option Lexer)
  (hl : string -> Lexer -> string) (s : string) :
  find code_open s = None -> highlight_code_blocks gl hl s = Ok s.
Proof.
  intros F. unfold highlight_code_blocks, re_sub_call.
  rewrite <- (sapp_nil_r s) at 1. rewrite re_sub_call_go_pass.
  - simpl. rewrite sapp_nil_r. reflexivity.
  - intros i _. rewrite sapp_nil_r. unfold match_code_block.
    rewrite (find_none _ _ F i). reflexivity.
Qed.

Lemma conditional_sub_none (X : string) (b : bool) (s : string) :
  find (exists_open X) s = None -> conditional_sub X b s = s.
Proof.
  intros F. unfold conditional_sub, re_sub.
  rewrite <- (sapp_nil_r s) at 1. rewrite re_sub_go_pass.
  - simpl. apply sapp_nil_r.
  - intros i _. rewrite sapp_nil_r. unfold match_conditional.
    rewrite (find_none _ _ F i). reflexivity.
Qed.

Lemma match_exists_marker_sound (s name : string) (n : nat) :
  match_exists_marker s = Some (name, n) ->
  name <> EmptyString /\ startswith (exists_open name) s = true.
Proof.
  intros M. unfold match_exists_marker in M.
  destruct (startswith "{{exists:" s) eqn:Ho; [|discriminate].
  apply startswith_true in Ho as [r ->].
  change 9 with (String.length "{{exists:") in M. rewrite drop_n_app in M.
  destruct ((0 <? String.length (take_while is_word r))%nat
            && startswith "}}" (drop_n (String.length "{{exists:"
                 + String.length (take_while is_word r)) ("{{exists:" ++ r))) eqn:Hc;
    [|discriminate].
  injection M as En _. apply andb_prop in Hc as [Hl Hc].
  assert (Hn : exists r', r = take_while is_word r ++ r').
  { clear. induction r as [|c r IH]; [exists EmptyString; reflexivity|].
    cbn [take_while]. destruct (is_word c); [|exists (String c r); reflexivity].
    destruct IH as [r' Hr']. exists r'. cbn [append]. rewrite <- Hr'. reflexivity. }
  rewrite En in Hl, Hc, Hn. destruct Hn as [r' Hr']. rewrite Hr' in Hc.
  rewrite <- slength_app, <- sapp_assoc, drop_n_app in Hc.
  apply startswith_true in Hc as [r'' Hr'']. split.
  - apply Nat.ltb_lt in Hl. intros E. rewrite E in Hl. cbn in Hl. lia.
  - rewrite Hr', Hr''. unfold exists_open. rewrite <- !sapp_assoc. apply startswith_app.
Qed.

Lemma findall_exists_sound (k : nat) (s X : string) :
  In X (findall_exists_go k s) ->
  X <> EmptyString /\ exists i, startswith (exists_open X) (drop_n i s) = true.
Proof.
  revert k; induction s as [|c s IH]; intros k H; cbn [findall_exists_go] in H; [contradiction|].
  destruct k as [|k].
  2:{ destruct (IH k H) as [Hne [i Hi]]. split; [exact Hne|]. exists (S i). exact Hi. }
  destruct (match_exists_marker (String c s)) as [[name n]|] eqn:M.
  2:{ destruct (IH 0 H) as [Hne [i Hi]]. split; [exact Hne|]. exists (S i). exact Hi. }
  destruct H as [<-|H].
  2:{ destruct (IH _ H) as [Hne [i Hi]]. split; [exact Hne|]. exists (S i). exact Hi. }
  destruct (match_exists_marker_sound _ _ _ M) as [Hne Hs].
  split; [exact Hne|]. exists 0. exact Hs.
Qed.

Lemma replace_go_none (old new s : string) :
  (forall i, startswith old (drop_n i s) = false) -> replace_go old new 0 s = s.
Proof.
  induction s as [|c s IH]; intros H; [reflexivity|]. cbn [replace_go].
  pose proof (H 0) as H0. cbn [drop_n] in H0. rewrite H0. f_equal. apply IH. intros i. exact (H (S i)).
Qed.

Lemma has_char_startswith (c : ascii) (p s : string) :
  has_char c s = false -> forall i, startswith (String c p) (drop_n i s) = false.
Proof.
  induction s as [|c' s IH]; intros H i.
  - destruct i; reflexivity.
  - cbn [has_char] in H. apply orb_false_elim in H as [H1 H2]. destruct i as [|i].
    + cbn [drop_n startswith]. rewrite H1. reflexivity.
    + cbn [drop_n]. apply IH. exact H2.
Qed.

Lemma replace_nochar (c : ascii) (p new s : string) :
  has_char c s = false -> replace s (String c p) new = s.
Proof. intros H. apply replace_go_none. apply has_char_startswith. exact H. Qed.

Lemma split_once_none (c : ascii) (s : string) :
  has_char c s = false -> split_once c s = None.
Proof.
  induction s as [|c' s IH]; intros H; [reflexivity|]. cbn [has_char] in H.
  apply orb_false_elim in H as [H1 H2]. cbn [split_once].
  rewrite Ascii.eqb_sym, H1, IH by exact H2. reflexivity.
Qed.

Lemma split_once_some (c : ascii) (s : string) :
  has_char c s = true -> exists a b, split_once c s = Some (a, b).
Proof.
  induction s as [|c' s IH]; intros H; [discriminate|]. cbn [has_char] in H. cbn [split_once].
  rewrite Ascii.eqb_sym. destruct (Ascii.eqb c c'); [eauto|].
  destruct (IH H) as (a & b & E). rewrite E. eauto.
Qed.

Lemma lstrip_has_char (c : ascii) (s : string) :
  is_space c = false -> has_char c s = true -> has_char c (lstrip s) = true.
Proof.
  intros Hc. induction s as [|c' s IH]; intros H; [discriminate|]. cbn [lstrip].
  destruct (is_space c') eqn:E; [|exact H]. apply IH. cbn [has_char] in H.
  destruct (Ascii.eqb c c') eqn:Ec; [|exact H].
  apply Ascii.eqb_eq in Ec. subst. congruence.
Qed.

Lemma rstrip_has_char (c : ascii) (s : string) :
  is_space c = false -> has_char c s = true -> has_char c (rstrip s) = true.
Proof.
  intros Hc. induction s as [|c' s IH]; intros H; [discriminate|]. rewrite rstrip_cons.
  cbn [has_char] in H. destruct (Ascii.eqb c c') eqn:Ec.
  - apply Ascii.eqb_eq in Ec. subst.
    destruct (rstrip s); [rewrite Hc|]; cbn [has_char]; rewrite Ascii.eqb_refl; reflexivity.
  - specialize (IH H). destruct (rstrip s) as [|a b]; [discriminate|].
    cbn [has_char] in IH |- *. rewrite IH, orb_true_r. reflexivity.
Qed.

Lemma strip_has_char_true (c : ascii) (s : string) :
  is_space c = false -> has_char c s = true -> has_char c (strip s) = true.
Proof. intros Hc H. apply rstrip_has_char, lstrip_has_char; assumption. Qed.

Lemma parse_meta_lines_all_ok (d : dict) (ls : list string) :
  forallb (fun m => String.eqb (strip m) EmptyString || has_char "=" m) ls = true ->
  exists d', parse_meta_lines d ls = Ok d'.
Proof.
  revert d; induction ls as [|l ls IH]; intros d H; [eexists; reflexivity|].
  cbn [forallb] in H. apply andb_prop in H as [Hl H]. cbn [parse_meta_lines].
  destruct (String.eqb (strip l) EmptyString); [apply IH; exact H|].
  cbn [orb] in Hl. unfold parse_meta_line.
  apply (strip_has_char_true "=") in Hl; [|reflexivity].
  destruct (split_once_some _ _ Hl) as (a & b & E). rewrite E. cbn [bind fst snd].
  apply IH. exact H.
Qed.

Lemma dict_set_head (k v k0 v0 : string) (rest : dict) :
  exists v' rest', dict_set k v ((k0, v0) :: rest) = (k0, v') :: rest'.
Proof.
  cbn [dict_set]. destruct (String.eqb k k0) eqn:E; [apply String.eqb_eq in E; subst|]; eauto.
Qed.

Lemma parse_meta_lines_head (k v : string) (rest : dict) (ls : list string) (m : dict) :
  parse_meta_lines ((k, v) :: rest) ls = Ok m -> exists v' rest', m = (k, v') :: rest'.
Proof.
  revert v rest; induction ls as [|l ls IH]; intros v rest H.
  - injection H as <-. eauto.
  - cbn [parse_meta_lines] in H. destruct (String.eqb (strip l) EmptyString); [eapply IH; eauto|].
    destruct (parse_meta_line l) as [[k' v'']|e]; [|discriminate]. cbn [bind fst snd] in H.
    destruct (dict_set_head k' v'' k v rest) as (v1 & rest1 & E). rewrite E in H.
    eapply IH; eauto.
Qed.

Lemma parse_meta_lines_nodup (d : dict) (ls : list string) (m : dict) :
  parse_meta_lines d ls = Ok m -> NoDup (map fst d) -> NoDup (map fst m).
Proof.
  revert d; induction ls as [|l ls IH]; intros d H Hd.
  - injection H as <-. exact Hd.
  - cbn [parse_meta_lines] in H. destruct (String.eqb (strip l) EmptyString); [eapply IH; eauto|].
    destruct (parse_meta_line l) as [kv|e]; [|discriminate]. cbn [bind] in H.
    eapply IH; [exact H|]. apply dict_set_nodup. exact Hd.
Qed.

Lemma extract_metadata_shape (f html : string) (ex : extracted) :
  extract_metadata f html = Ok ex ->
  (exists v rest, ex_metadata ex = ("filename", v) :: rest) /\ NoDup (map fst (ex_metadata ex)).
Proof.
  unfold extract_metadata. destruct (find "-->" html) as [ix|].
  - unfold parse_metadata. destruct (parse_meta_lines _ _) as [pm|e] eqn:E; [|discriminate].
    cbn [bind]. intros H. injection H as <-. cbn [ex_metadata]. split.
    + eapply parse_meta_lines_head; exact E.
    + eapply parse_meta_lines_nodup; [exact E|]. repeat constructor. intros [].
  - intros H. injection H as <-. cbn [ex_metadata]. split; [eauto|]. repeat constructor. intros [].
Qed.

Lemma bind_raise {A B : Type} (m : result A) (k : A -> result B) (e : exn) :
  bind m k = Raise e -> m = Raise e \/ exists v, m = Ok v /\ k v = Raise e.
Proof. destruct m as [v|e']; cbn [bind]; intros H; [right; eauto | left; congruence]. Qed.

Lemma dict_getitem_raise (d : dict) (k : string) (e : exn) :
  dict_getitem d k = Raise e -> e = KeyError k.
Proof. unfold dict_getitem. destruct (dict_get k d); intros H; [discriminate | congruence]. Qed.

Lemma strptime_date_raise (s : string) (e : exn) : strptime_date s = Raise e -> e = ValueError.
Proof.
  unfold strptime_date.
  repeat match goal with
         | |- context [match ?x with _ => _ end] => destruct x
         end; intros H; congruence.
Qed.

Lemma build_posts_go_filename (ps : list dict) :
  Forall (fun d => dict_mem "filename" d = true) ps ->
  build_posts_go ps <> Raise (KeyError "filename").
Proof.
  induction 1 as [|p ps Hp _ IH]; [discriminate|]. cbn [build_posts_go]. intros H.
  unfold dict_mem in Hp. unfold dict_getitem at 1 in H.
  destruct (dict_get "filename" p) as [f|]; [|discriminate]. cbn [bind] in H.
  apply bind_raise in H as [H|(t & _ & H)]; [apply dict_getitem_raise in H; discriminate|].
  apply bind_raise in H as [H|(d & _ & H)]; [apply dict_getitem_raise in H; discriminate|].
  apply bind_raise in H as [H|(ds & _ & H)]; [apply strptime_date_raise in H; discriminate|].
  apply bind_raise in H as [H|(dr & _ & H)]; [apply dict_getitem_raise in H; discriminate|].
  apply bind_raise in H as [H|(r & _ & H)]; [exact (IH H) | discriminate].
Qed.

Lemma build_post_pages_metadata {Lexer : Type} (gl : string -> option Lexer)
  (hl : string -> Lexer -> string) (mc : string -> string) (spt ht : string)
  (cvars : list string) (files : list (string * string)) (pm0 pm : list dict)
  (pages : list (string * string)) :
  build_post_pages gl hl mc spt ht cvars files pm0 = Ok (pages, pm) ->
  exists added, pm = app pm0 added /\ Forall (fun d => dict_mem "filename" d = true) added.
Proof.
  revert pm0 pages; induction files as [|[name src] files IH]; intros pm0 pages H.
  - injection H as _ <-. exists []. split; [symmetry; apply app_nil_r | constructor].
  - cbn [build_post_pages] in H.
    destruct (process_post gl hl mc spt ht cvars (slice_to name (-3)) src) as [r|e] eqn:Ep;
      [|discriminate]. cbn [bind] in H.
    destruct (build_post_pages gl hl mc spt ht cvars files _) as [[pages' pm']|e] eqn:Er;
      [|discriminate]. cbn [bind fst snd] in H. injection H as _ <-.
    destruct (IH _ _ Er) as (added & -> & Hadd).
    destruct (pr_appended r).
    + exists (pr_metadata r :: added). split; [rewrite <- app_assoc; reflexivity|].
      constructor; [|exact Hadd].
      unfold process_post in Ep.
      destruct (highlight_code_blocks gl hl (mc src)) as [h|e]; [|discriminate]. cbn [bind] in Ep.
      destruct (extract_metadata (slice_to name (-3)) h) as [ex|e] eqn:Ex; [|discriminate].
      cbn [bind] in Ep. injection Ep as <-. cbn [pr_metadata].
      destruct (extract_metadata_shape _ _ _ Ex) as [(v & rest & ->) _].
      unfold dict_mem. cbn. reflexivity.
    + exists added. split; [reflexivity | exact Hadd].
Qed.

Lemma slice_to_md (b : string) : slice_to (b ++ ".md") (-3) = b.
Proof.
  unfold slice_to, slice. rewrite slength_app. cbn [String.length].
  replace (norm_index 0 (String.length b + 3)) with 0
    by (unfold norm_index; cbn -[Z.of_nat]; lia).
  replace (norm_index (-3) (String.length b + 3)) with (String.length b)
    by (unfold norm_index; cbn -[Z.of_nat]; lia).
  rewrite Nat.sub_0_r, substring_app_l by lia. apply substring_whole.
Qed.

Lemma build_post_pages_paths {Lexer : Type} (gl : string -> option Lexer)
  (hl : string -> Lexer -> string) (mc : string -> string) (spt ht : string)
  (cvars : list string) (files : list (string * string)) (pm0 pm : list dict)
  (pages : list (string * string)) :
  build_post_pages gl hl mc spt ht cvars files pm0 = Ok (pages, pm) ->
  map fst pages = map (fun f => "./build/posts/" ++ slice_to (fst f) (-3) ++ "/index.html") files.
Proof.
  revert pm0 pages; induction files as [|[name src] files IH]; intros pm0 pages H.
  - injection H as <- _. reflexivity.
  - cbn [build_post_pages] in H.
    destruct (process_post gl hl mc spt ht cvars (slice_to name (-3)) src) as [r|e];
      [|discriminate]. cbn [bind] in H.
    destruct (build_post_pages gl hl mc spt ht cvars files _) as [[pages' pm']|e] eqn:Er;
      [|discriminate]. cbn [bind fst snd] in H. injection H as <- ->.
    cbn [map fst]. f_equal. exact (IH _ _ Er).
Qed.

Lemma move_static_go_raise_after {Image : Type} (io : string -> option Image)
  (sv : Image -> string) (pre rest : list string) (e : exn) :
  forallb (fun m => negb (endswith ".png" m) || match io ("./static/" ++ m) with
                                                 | Some _ => true | None => false end) pre
  = true ->
  move_static_go io sv rest = Raise e -> move_static_go io sv (app pre rest) = Raise e.
Proof.
  induction pre as [|m pre IH]; intros Hpre Hr; [exact Hr|].
  cbn [forallb] in Hpre. apply andb_prop in Hpre as [Hm Hpre].
  cbn [app move_static_go]. destruct (endswith ".png" m); [|apply IH; assumption].
  cbn [negb orb] in Hm. destruct (io ("./static/" ++ m)); [|discriminate].
  rewrite IH by assumption. reflexivity.
Qed.


(** ** Properties *)

(** [build_projects] succeeds on projects that all have a title and a url,
    listing them in order; otherwise the first project without [title]
    raises [KeyError "title"], and one with a title but no [url] raises
    [KeyError "url"]. *)
Theorem build_projects_spec (ps pre rest : list dict) (p : dict) :
  (forallb project_ok ps = true ->
   build_projects ps = Ok ("<ul>" ++ concat_all (map project_entry ps) ++ "</ul>")) /\
  (forallb project_ok pre = true -> dict_get "title" p = None ->
   build_projects (app pre (p :: rest)) = Raise (KeyError "title")) /\
  (forall t, forallb project_ok pre = true -> dict_get "title" p = Some t ->
   dict_get "url" p = None ->
   build_projects (app pre (p :: rest)) = Raise (KeyError "url")).
Proof.
  split; [|split].
  - intros H. unfold build_projects. rewrite build_projects_go_all_ok by exact H. reflexivity.
  - intros Hpre Ht. unfold build_projects.
    rewrite (build_projects_go_raise_after pre (p :: rest) (KeyError "title") Hpre).
    + reflexivity.
    + cbn [build_projects_go]. unfold dict_getitem. rewrite Ht. reflexivity.
  - intros t Hpre Ht Hu. unfold build_projects.
    rewrite (build_projects_go_raise_after pre (p :: rest) (KeyError "url") Hpre).
    + reflexivity.
    + cbn [build_projects_go]. unfold dict_getitem. rewrite Ht. cbn [bind]. rewrite Hu.
      reflexivity.
Qed.

(** The index page fails exactly when [build_posts] fails, with the same
    exception: the hard-coded project list always renders. *)
Theorem build_index_page_fails_iff (index_template html_template : string)
  (posts_metadata : list dict) (e : exn) :
  build_index_page index_template html_template posts_metadata = Raise e <->
  build_posts posts_metadata = Raise e.
Proof.
  destruct build_projects_ALL_PROJECTS as [out Hout].
  unfold build_index_page. rewrite Hout.
  destruct (build_posts posts_metadata); cbn [bind]; split; intros H;
    solve [discriminate | exact H].
Qed.

(** When every block's language has a lexer, highlighting replaces each
    block, in place, by the highlighted decoded code, and keeps the text
    between the blocks. *)
Theorem highlight_code_blocks_known {Lexer : Type} (gl : string -> option Lexer)
  (hl : string -> Lexer -> string) (segs : list (string * string * string)) (tail : string) :
  forallb segment_ok segs = true ->
  forallb (fun seg => match gl (snd (fst seg)) with Some _ => true | None => false end) segs
  = true ->
  find code_open tail = None ->
  highlight_code_blocks gl hl (page_of segs tail)
  = Ok (rendered_page (fun lang code => match gl lang with
                                        | Some lx => hl (decode_entities code) lx
                                        | None => EmptyString
                                        end) segs tail).
Proof.
  induction segs as [|[[t lang] code] segs IH]; intros Hok Hgl Ht;
    [apply highlight_code_blocks_none; exact Ht|].
  simpl in Hok, Hgl. apply andb_prop in Hok as [Hseg Hok].
  apply andb_prop in Hgl as [Hl Hgl].
  destruct (segment_ok_spec _ _ _ Hseg) as (H1 & H2 & H3 & H4 & H5).
  cbn [page_of rendered_page]. rewrite highlight_code_blocks_block by assumption.
  rewrite IH by assumption. unfold hilite_code.
  destruct (gl lang); [reflexivity | discriminate].
Qed.

(** The conditional pass leaves a page alone when none of the names has an
    opening marker in it. *)
Theorem render_conditionals_no_marker (cvars : list string) (md : dict) (s : string) :
  Forall (fun X => find (exists_open X) s = None) cvars ->
  render_conditionals cvars md s = s.
Proof.
  induction 1 as [|X cvars HX _ IH]; [reflexivity|].
  cbn [render_conditionals]. rewrite conditional_sub_none by exact HX. exact IH.
Qed.

(** Every name the template scan collects is a non-empty run of word
    characters whose opening marker [{{exists:X}}] occurs in one of the
    scanned templates. *)
Theorem scan_conditional_variables_sound (pages : list string) (X : string) :
  In X (scan_conditional_variables pages) ->
  X <> EmptyString /\ str_forall is_word X = true /\
  exists page i, In page pages /\ startswith (exists_open X) (drop_n i page) = true.
Proof.
  unfold scan_conditional_variables. intros H. apply in_flat_map in H as (page & Hp & H).
  destruct (findall_exists_sound _ _ _ H) as [Hne [i Hi]].
  split; [exact Hne|]. split; [eapply findall_exists_word; exact H|]. eauto.
Qed.

(** Code without an [&] reaches the lexer unchanged: the entity decoding
    only acts on text that holds an [&]. *)
Theorem hilite_code_no_ampersand {Lexer : Type} (gl : string -> option Lexer)
  (hl : string -> Lexer -> string) (lang code : string) :
  has_char "&" code = false ->
  hilite_code gl hl lang code = match gl lang with
                                | Some lx => Ok (hl code lx)
                                | None => Raise (ClassNotFound lang)
                                end.
Proof.
  intros H. unfold hilite_code, decode_entities. cbv zeta.
  rewrite !(replace_nochar "&"%char _ _ code H). reflexivity.
Qed.

(** A non-blank metadata line without [=] makes the parse raise
    [ValueError] once every line before it is blank or holds an [=],
    whatever follows. *)
Theorem parse_meta_lines_no_equals (d : dict) (pre post : list string) (l : string) :
  forallb (fun m => String.eqb (strip m) EmptyString || has_char "=" m) pre = true ->
  String.eqb (strip l) EmptyString = false -> has_char "=" l = false ->
  parse_meta_lines d (app pre (l :: post)) = Raise ValueError.
Proof.
  intros Hpre Hl He. rewrite parse_meta_lines_app.
  destruct (parse_meta_lines_all_ok d pre Hpre) as [d' ->]. cbn [bind parse_meta_lines].
  rewrite Hl. unfold parse_meta_line.
  rewrite split_once_none by (apply strip_has_char; exact He). reflexivity.
Qed.

(** A [.png] asset that PIL cannot open raises [OSError] and stops the
    loop, once the [.png] files before it have opened. *)
Theorem move_static_unreadable_png {Image : Type} (io : string -> option Image)
  (sv : Image -> string) (pre post : list string) (n : string) :
  forallb (fun m => negb (endswith ".png" m) || match io ("./static/" ++ m) with
                                                 | Some _ => true | None => false end) pre
  = true ->
  endswith ".png" n = true -> io ("./static/" ++ n) = None ->
  move_static_go io sv (app pre (n :: post)) = Raise OSError.
Proof.
  intros Hpre Hn Hio. apply move_static_go_raise_after; [exact Hpre|].
  cbn [move_static_go]. rewrite Hn, Hio. reflexivity.
Qed.

(** The metadata of a post always starts with the key [filename]: a
    metadata line [filename = ...] can change its value, not its place.
    When no line of the comment sets [filename], the value is the filename
    derived from the post's name. *)
Theorem extract_metadata_keys (filename out_html : string) (ex : extracted) :
  extract_metadata filename out_html = Ok ex ->
  (exists v rest, ex_metadata ex = ("filename", v) :: rest) /\
  ((forall ix, find "-->" out_html = Some ix ->
     forallb (line_keeps "filename") (splitlines (slice out_html 4 (Z.of_nat ix))) = true) ->
   dict_get "filename" (ex_metadata ex) = Some filename).
Proof.
  intros H. split; [exact (proj1 (extract_metadata_shape _ _ _ H))|]. intros Hk.
  unfold extract_metadata in H. destruct (find "-->" out_html) as [ix|] eqn:F.
  - unfold parse_metadata in H.
    destruct (parse_meta_lines _ _) as [pm|e] eqn:E; [|discriminate].
    cbn [bind] in H. injection H as <-. cbn [ex_metadata].
    eapply parse_meta_lines_keep; [| exact (Hk ix eq_refl) | exact E].
    cbn. reflexivity.
  - injection H as <-. cbn. reflexivity.
Qed.

(** [build_posts] on the [posts_metadata] the post loop builds never raises
    [KeyError "filename"]: every entry appended has that key. *)
Theorem build_posts_filename_present {Lexer : Type} (gl : string -> option Lexer)
  (hl : string -> Lexer -> string) (mc : string -> string) (spt ht : string)
  (cvars : list string) (files : list (string * string)) (pages : list (string * string))
  (pm : list dict) :
  build_post_pages gl hl mc spt ht cvars files [] = Ok (pages, pm) ->
  build_posts pm <> Raise (KeyError "filename").
Proof.
  intros H. destruct (build_post_pages_metadata _ _ _ _ _ _ _ _ _ _ H) as (added & -> & Hadd).
  cbn [app]. unfold build_posts. intros E.
  destruct (build_posts_go added) as [body|e] eqn:B; cbn [fmap] in E; [discriminate|].
  injection E as ->. exact (build_posts_go_filename _ Hadd B).
Qed.

(** The post [<name>.md] is written to [./build/posts/<name>/index.html],
    one page per post, in the order of the files. *)
Theorem build_post_pages_md_paths {Lexer : Type} (gl : string -> option Lexer)
  (hl : string -> Lexer -> string) (mc : string -> string) (spt ht : string)
  (cvars : list string) (files : list (string * string)) (pm0 pm : list dict)
  (pages : list (string * string)) :
  build_post_pages gl hl mc spt ht cvars (map (fun f => (fst f ++ ".md", snd f)) files) pm0
  = Ok (pages, pm) ->
  map fst pages = map (fun f => "./build/posts/" ++ fst f ++ "/index.html") files.
Proof.
  intros H. rewrite (build_post_pages_paths _ _ _ _ _ _ _ _ _ _ H), map_map.
  apply map_ext. intros [b src]. cbn [fst]. rewrite slice_to_md. reflexivity.
Qed.

(** ** Witnesses *)

Lemma build_projects_spec_witness :
  build_projects [[("title", "a"); ("url", "u")]]
  = Ok ("<ul>" ++ concat_all (map project_entry [[("title", "a"); ("url", "u")]]) ++ "</ul>") /\
  build_projects (app [[("title", "a"); ("url", "u")]] ([("url", "v")] :: []))
  = Raise (KeyError "title") /\
  build_projects (app [] ([("title", "b")] :: [])) = Raise (KeyError "url").
Proof.
  destruct (build_projects_spec [[("title", "a"); ("url", "u")]] [[("title", "a"); ("url", "u")]]
              [] [("url", "v")]) as [H1 [H2 _]].
  destruct (build_projects_spec [] [] [] [("title", "b")]) as [_ [_ H3]].
  split; [apply H1; reflexivity|]. split; [apply H2; reflexivity|].
  apply (H3 "b"); reflexivity.
Defined.

Lemma highlight_code_blocks_known_witness :
  forallb segment_ok [("a", "py", "x &lt; 1")] = true /\
  forallb (fun seg => match (fun l => if String.eqb l "py" then Some tt else None)
                              (snd (fst seg)) with Some _ => true | None => false end)
    [("a", "py", "x &lt; 1")] = true /\
  find code_open "b" = None /\
  highlight_code_blocks (fun l => if String.eqb l "py" then Some tt else None)
    (fun code _ => "<hl>" ++ code) (page_of [("a", "py", "x &lt; 1")] "b")
  = Ok (rendered_page (fun lang code =>
          match (fun l => if String.eqb l "py" then Some tt else None) lang with
          | Some lx => (fun code _ => "<hl>" ++ code) (decode_entities code) lx
          | None => EmptyString
          end) [("a", "py", "x &lt; 1")] "b").
Proof.
  split; [vm_compute; reflexivity|]. split; [vm_compute; reflexivity|].
  split; [vm_compute; reflexivity|].
  apply highlight_code_blocks_known; vm_compute; reflexivity.
Defined.

Lemma render_conditionals_no_marker_witness :
  Forall (fun X => find (exists_open X) "hello" = None) ["x"] /\
  render_conditionals ["x"] [("filename", "p")] "hello" = "hello".
Proof.
  assert (H : Forall (fun X => find (exists_open X) "hello" = None) ["x"])
    by (constructor; [vm_compute; reflexivity | constructor]).
  split; [exact H | apply render_conditionals_no_marker; exact H].
Defined.

Lemma scan_conditional_variables_sound_witness :
  In "x" (scan_conditional_variables ["a{{exists:x}}b"]) /\
  "x" <> EmptyString /\ str_forall is_word "x" = true /\
  exists page i, In page ["a{{exists:x}}b"] /\ startswith (exists_open "x") (drop_n i page) = true.
Proof.
  assert (H : In "x" (scan_conditional_variables ["a{{exists:x}}b"]))
    by (vm_compute; left; reflexivity).
  split; [exact H | apply scan_conditional_variables_sound; exact H].
Defined.

Lemma hilite_code_no_ampersand_witness :
  has_char "&" "x < 1" = false /\
  hilite_code (fun l => if String.eqb l "py" then Some tt else None)
    (fun code _ => "<hl>" ++ code) "py" "x < 1" = Ok ("<hl>" ++ "x < 1").
Proof.
  split; [vm_compute; reflexivity|].
  apply (hilite_code_no_ampersand (fun l => if String.eqb l "py" then Some tt else None)
           (fun code _ => "<hl>" ++ code) "py" "x < 1"). vm_compute. reflexivity.
Defined.

Lemma parse_meta_lines_no_equals_witness :
  forallb (fun m => String.eqb (strip m) EmptyString || has_char "=" m) ["title = A"; "  "]
  = true /\
  String.eqb (strip "oops") EmptyString = false /\ has_char "=" "oops" = false /\
  parse_meta_lines [("filename", "p")] (app ["title = A"; "  "] ("oops" :: ["draft = x"]))
  = Raise ValueError.
Proof.
  split; [vm_compute; reflexivity|]. split; [vm_compute; reflexivity|].
  split; [vm_compute; reflexivity|].
  apply parse_meta_lines_no_equals; vm_compute; reflexivity.
Defined.

Lemma move_static_unreadable_png_witness :
  forallb (fun m => negb (endswith ".png" m)
                    || match (fun p => if String.eqb p "./static/a.png" then Some tt else None)
                               ("./static/" ++ m) with Some _ => true | None => false end)
    ["a.png"; "b.txt"] = true /\
  endswith ".png" "c.png" = true /\
  (fun p => if String.eqb p "./static/a.png" then Some tt else None) ("./static/" ++ "c.png")
  = None /\
  move_static_go (fun p => if String.eqb p "./static/a.png" then Some tt else None)
    (fun _ => "img") (app ["a.png"; "b.txt"] ("c.png" :: ["d.png"])) = Raise OSError.
Proof.
  split; [vm_compute; reflexivity|]. split; [vm_compute; reflexivity|].
  split; [vm_compute; reflexivity|].
  apply move_static_unreadable_png; vm_compute; reflexivity.
Defined.

Lemma extract_metadata_keys_witness :
  extract_metadata "p" ("<!--" ++ nl ++ "title = A" ++ nl ++ "filename = q" ++ nl ++ "-->x")
  = Ok {| ex_metadata := [("filename", "q"); ("title", "A")]; ex_appended := true;
          ex_body := "x" |} /\
  (exists v rest, [("filename", "q"); ("title", "A")] = ("filename", v) :: rest) /\
  extract_metadata "p" ("<!--" ++ nl ++ "title = A" ++ nl ++ "-->x")
  = Ok {| ex_metadata := [("filename", "p"); ("title", "A")]; ex_appended := true;
          ex_body := "x" |} /\
  (forall ix, find "-->" ("<!--" ++ nl ++ "title = A" ++ nl ++ "-->x") = Some ix ->
     forallb (line_keeps "filename")
       (splitlines (slice ("<!--" ++ nl ++ "title = A" ++ nl ++ "-->x") 4 (Z.of_nat ix)))
     = true) /\
  dict_get "filename" [("filename", "p"); ("title", "A")] = Some "p".
Proof.
  assert (H1 : extract_metadata "p"
                 ("<!--" ++ nl ++ "title = A" ++ nl ++ "filename = q" ++ nl ++ "-->x")
               = Ok {| ex_metadata := [("filename", "q"); ("title", "A")]; ex_appended := true;
                       ex_body := "x" |}) by (vm_compute; reflexivity).
  assert (H2 : extract_metadata "p" ("<!--" ++ nl ++ "title = A" ++ nl ++ "-->x")
               = Ok {| ex_metadata := [("filename", "p"); ("title", "A")]; ex_appended := true;
                       ex_body := "x" |}) by (vm_compute; reflexivity).
  assert (K : forall ix, find "-->" ("<!--" ++ nl ++ "title = A" ++ nl ++ "-->x") = Some ix ->
     forallb (line_keeps "filename")
       (splitlines (slice ("<!--" ++ nl ++ "title = A" ++ nl ++ "-->x") 4 (Z.of_nat ix)))
     = true).
  { intros ix F. vm_compute in F. injection F as <-. vm_compute. reflexivity. }
  split; [exact H1|]. split; [exact (proj1 (extract_metadata_keys _ _ _ H1))|].
  split; [exact H2|]. split; [exact K|]. exact (proj2 (extract_metadata_keys _ _ _ H2) K).
Defined.

Lemma build_posts_filename_present_witness :
  build_post_pages (fun _ : string => @None unit) (fun s _ => s) (fun s => s)
    "{{CONTENT}}" "{{CONTENT}}" [] [("a.md", "<!--" ++ nl ++ "title = A" ++ nl ++ "-->x")] []
  = Ok ([("./build/posts/a/index.html", "x")], [[("filename", "a"); ("title", "A")]]) /\
  build_posts [[("filename", "a"); ("title", "A")]] <> Raise (KeyError "filename").
Proof.
  assert (H : build_post_pages (fun _ : string => @None unit) (fun s _ => s) (fun s => s)
    "{{CONTENT}}" "{{CONTENT}}" [] [("a.md", "<!--" ++ nl ++ "title = A" ++ nl ++ "-->x")] []
    = Ok ([("./build/posts/a/index.html", "x")], [[("filename", "a"); ("title", "A")]]))
    by (vm_compute; reflexivity).
  split; [exact H | exact (build_posts_filename_present _ _ _ _ _ _ _ _ _ H)].
Defined.

Lemma build_post_pages_md_paths_witness :
  build_post_pages (fun _ : string => @None unit) (fun s _ => s) (fun s => s)
    "{{CONTENT}}" "{{CONTENT}}" []
    (map (fun f => (fst f ++ ".md", snd f)) [("a", "<!--" ++ nl ++ "title = A" ++ nl ++ "-->x")])
    []
  = Ok ([("./build/posts/a/index.html", "x")], [[("filename", "a"); ("title", "A")]]) /\
  map fst [("./build/posts/a/index.html", "x")]
  = map (fun f => "./build/posts/" ++ fst f ++ "/index.html")
      [("a", "<!--" ++ nl ++ "title = A" ++ nl ++ "-->x")].
Proof.
  assert (H : build_post_pages (fun _ : string => @None unit) (fun s _ => s) (fun s => s)
    "{{CONTENT}}" "{{CONTENT}}" []
    (map (fun f => (fst f ++ ".md", snd f)) [("a", "<!--" ++ nl ++ "title = A" ++ nl ++ "-->x")])
    []
    = Ok ([("./build/posts/a/index.html", "x")], [[("filename", "a"); ("title", "A")]]))
    by (vm_compute; reflexivity).
  split; [exact H | exact (build_post_pages_md_paths _ _ _ _ _ _ _ _ _ _ H)].
Defined.
